(** * Coffee shop storefront: cart, checkout and order computation

    A shallow embedding of the storefront's client code (the cart context
    reducer and its operations, the checkout form, the two order-summary
    components) together with a model of the cart, catalog and order
    services the client talks to.

    Conventions.
    - A JavaScript [number] received from the server is a binary64 float
      ([PrimFloat.float]); a quantity the client itself counts (the
      selector's state, the argument of a cart operation) is an integer
      ([Z]).
    - A JavaScript string is the list of its UTF-16 code units.
    - [await] on a remote call is a step of a small state monad over the
      browser-side world: the reducer state plus the log of requests that
      left the client. *)

From Stdlib Require Import ZArith NArith QArith Qcanon List Bool Floats Lia.
From stdpp Require Import base option list gmap strings.
Import ListNotations.

Set Warnings "-inexact-float".

(** * Part I. The program *)

(** ** JavaScript strings and the regular expressions of the checkout form *)

Module JS.

(** A string is the sequence of its UTF-16 code units; the patterns below
    carry no [u] flag, so they see code units as well. *)
Abbreviation jsstring := (list N).

(** A string literal of the source (all of them are ASCII). *)
Definition lit (s : string) : jsstring :=
  map Ascii.N_of_ascii (String.list_ascii_of_string s).

(** Truthiness of a string: only the empty string is falsy. *)
Definition truthy (s : jsstring) : bool :=
  match s with
  | [] => false
  | _ :: _ => true
  end.

(** [s.slice(-n)]: the start index is [max (length s - n) 0], the end is the
    end of the string. *)
Definition slice_last (n : nat) (s : jsstring) : jsstring :=
  skipn (length s - n) s.

(** The class [\s]: ECMAScript WhiteSpace and LineTerminator code points. *)
Definition is_space (c : N) : bool :=
  (N.leb 9 c && N.leb c 13)
  || N.eqb c 32 || N.eqb c 160 || N.eqb c 5760
  || (N.leb 8192 c && N.leb c 8202)
  || N.eqb c 8232 || N.eqb c 8233 || N.eqb c 8239 || N.eqb c 8287
  || N.eqb c 12288 || N.eqb c 65279.

(** The class [\d]. *)
Definition is_digit (c : N) : bool := N.leb 48 c && N.leb c 57.

(** The class [[^\s@]]. *)
Definition not_space_at (c : N) : bool := negb (is_space c || N.eqb c 64).

Definition is_char (a : string) (c : N) : bool :=
  match lit a with
  | [x] => N.eqb c x
  | _ => false
  end.

(** The fragment of the pattern language the form uses.  A pattern written
    [/^r$/] without flags is the body [r] matched against the whole string. *)
Inductive regex : Type :=
| Void : regex
| Eps : regex
| Class : (N -> bool) -> regex
| Seq : regex -> regex -> regex
| Alt : regex -> regex -> regex
| Star : regex -> regex.

(** [r+], [r?] and [r{n}]. *)
Definition Plus (r : regex) : regex := Seq r (Star r).
Definition Opt (r : regex) : regex := Alt r Eps.
Fixpoint Rep (n : nat) (r : regex) : regex :=
  match n with
  | O => Eps
  | S n' => Seq r (Rep n' r)
  end.

(** Which strings a pattern body denotes. *)
Inductive Matches : regex -> jsstring -> Prop :=
| MEps : Matches Eps []
| MClass p c : p c = true -> Matches (Class p) [c]
| MSeq r1 r2 s1 s2 : Matches r1 s1 -> Matches r2 s2 -> Matches (Seq r1 r2) (s1 ++ s2)
| MAltL r1 r2 s : Matches r1 s -> Matches (Alt r1 r2) s
| MAltR r1 r2 s : Matches r2 s -> Matches (Alt r1 r2) s
| MStar0 r : Matches (Star r) []
| MStarS r s1 s2 : Matches r s1 -> Matches (Star r) s2 -> Matches (Star r) (s1 ++ s2).

(** The matcher: Brzozowski derivatives, one code unit at a time. *)
Fixpoint nullable (r : regex) : bool :=
  match r with
  | Void => false
  | Eps => true
  | Class _ => false
  | Seq r1 r2 => nullable r1 && nullable r2
  | Alt r1 r2 => nullable r1 || nullable r2
  | Star _ => true
  end.

Fixpoint deriv (c : N) (r : regex) : regex :=
  match r with
  | Void => Void
  | Eps => Void
  | Class p => if p c then Eps else Void
  | Seq r1 r2 =>
      if nullable r1 then Alt (Seq (deriv c r1) r2) (deriv c r2)
      else Seq (deriv c r1) r2
  | Alt r1 r2 => Alt (deriv c r1) (deriv c r2)
  | Star r1 => Seq (deriv c r1) (Star r1)
  end.

(** [/^r$/.test(s)]. *)
Fixpoint test (r : regex) (s : jsstring) : bool :=
  match s with
  | [] => nullable r
  | c :: s' => test (deriv c r) s'
  end.

(** [/^[^\s@]+@[^\s@]+\.[^\s@]+$/] *)
Definition email_pattern : regex :=
  Seq (Plus (Class not_space_at))
    (Seq (Class (is_char "@"))
       (Seq (Plus (Class not_space_at))
          (Seq (Class (is_char "."))
             (Plus (Class not_space_at))))).

(** [/^\d{5}(-\d{4})?$/] *)
Definition zip_pattern : regex :=
  Seq (Rep 5 (Class is_digit))
    (Opt (Seq (Class (is_char "-")) (Rep 4 (Class is_digit)))).

End JS.

(** ** The shared TypeScript types *)

Module Product.
Inductive RoastLevel := Light | Medium | Dark.
Record t := mk {
  id : JS.jsstring;
  name : JS.jsstring;
  description : JS.jsstring;
  price : float;
  category : JS.jsstring;
  roast_level : RoastLevel;
  origin : JS.jsstring;
  image_url : JS.jsstring;
  in_stock : bool;
  weight : JS.jsstring;
  flavor_notes : list JS.jsstring;
  processing_method : JS.jsstring
}.
End Product.

Module CartItem.
Record t := mk {
  product_id : JS.jsstring;
  product : Product.t;
  quantity : float;
  subtotal : float
}.
End CartItem.

Module Cart.
Record t := mk {
  cart_id : JS.jsstring;
  items : list CartItem.t;
  total_items : Z;
  subtotal : float
}.
End Cart.

Module ShippingAddress.
Record t := mk {
  street : JS.jsstring;
  city : JS.jsstring;
  state : JS.jsstring;
  zip : JS.jsstring
}.
End ShippingAddress.

Module CustomerInfo.
Record t := mk {
  name : JS.jsstring;
  email : JS.jsstring;
  phone : JS.jsstring;
  shipping_address : ShippingAddress.t
}.
End CustomerInfo.

Module PaymentInfo.
Record t := mk {
  method : JS.jsstring;
  last_four : JS.jsstring
}.
End PaymentInfo.

(** What a rejected promise carries: an [Error] object with its message, or
    any other thrown value. *)
Inductive Thrown : Type :=
| ErrorObject (message : JS.jsstring)
| OtherValue.

(** The result of awaiting [apiRequest<T>]. *)
Inductive Settled (T : Type) : Type :=
| Resolved (value : T)
| Rejected (reason : Thrown).
Arguments Resolved {T} value.
Arguments Rejected {T} reason.

(** [error instanceof Error ? error.message : fallback] *)
Definition errorMessage (error : Thrown) (fallback : string) : JS.jsstring :=
  match error with
  | ErrorObject message => message
  | OtherValue => JS.lit fallback
  end.

(** ** Order summary (cart page and checkout page) *)

Module Pricing.

Record Summary := mkSummary {
  shipping : float;
  tax : float;
  total : float
}.

(** [OrderSummary({ subtotal })] of the cart page: the three constants it
    binds before rendering. *)
Definition OrderSummary (subtotal : float) : Summary :=
  let shipping := if PrimFloat.leb 75 subtotal then 0%float else 5.99%float in
  let tax := PrimFloat.mul subtotal 0.0875 in
  let total := PrimFloat.add (PrimFloat.add subtotal shipping) tax in
  mkSummary shipping tax total.

(** [CheckoutSummary({ cart })] of the checkout page: the same three
    constants, read off [cart.subtotal]. *)
Definition CheckoutSummary (cart : Cart.t) : Summary :=
  let shipping := if PrimFloat.leb 75 (Cart.subtotal cart) then 0%float else 5.99%float in
  let tax := PrimFloat.mul (Cart.subtotal cart) 0.0875 in
  let total := PrimFloat.add (PrimFloat.add (Cart.subtotal cart) shipping) tax in
  mkSummary shipping tax total.

End Pricing.

Module OrderItem.
Record t := mk {
  product_id : JS.jsstring;
  product_name : JS.jsstring;
  quantity : Z;
  price : float;
  subtotal : float
}.
End OrderItem.

Module Order.
Inductive Status := pending | processing | shipped | delivered.
Record t := mk {
  id : JS.jsstring;
  order_number : JS.jsstring;
  items : list OrderItem.t;
  customer_info : CustomerInfo.t;
  subtotal : float;
  tax : float;
  shipping : float;
  total : float;
  status : Status;
  created_at : JS.jsstring;
  tracking_number : option JS.jsstring
}.
End Order.

(** ** The API client: what each [cartApi] / [ordersApi] function requests *)

Module cartApi.
Inductive Request : Type :=
| getCart                                                  (* GET /cart *)
| addToCart (productId : JS.jsstring) (quantity : Z)       (* POST /cart *)
| updateCartItem (productId : JS.jsstring) (quantity : Z)  (* PUT /cart/{id} *)
| removeFromCart (productId : JS.jsstring).                (* DELETE /cart/{id} *)
End cartApi.

Module ordersApi.
(** The body of [POST /orders]: [{ customer_info, payment_info }]. *)
Record Request := createOrder {
  customer_info : CustomerInfo.t;
  payment_info : PaymentInfo.t
}.
End ordersApi.

(** ** The cart context: reducer and provider operations *)

Module CartContext.

Record CartContextState := mkState {
  cart : option Cart.t;
  loading : bool;
  error : option JS.jsstring
}.

Inductive CartAction : Type :=
| SET_LOADING (payload : bool)
| SET_ERROR (payload : option JS.jsstring)
| SET_CART (payload : Cart.t)
| CLEAR_CART.

Definition initialState : CartContextState :=
  {| cart := None; loading := false; error := None |}.

Definition cartReducer (state : CartContextState) (action : CartAction)
  : CartContextState :=
  match action with
  | SET_LOADING payload =>
      {| cart := cart state; loading := payload; error := error state |}
  | SET_ERROR payload =>
      {| cart := cart state; loading := false; error := payload |}
  | SET_CART payload =>
      {| cart := Some payload; loading := false; error := None |}
  | CLEAR_CART =>
      {| cart := None; loading := loading state; error := error state |}
  end.

Section Provider.

(** The far side of [fetch]: some state and a reaction to every cart request.
    Nothing is assumed of it; it may fail any call. *)
Context {Remote : Type}.
Variable fetch : Remote -> cartApi.Request -> Settled Cart.t * Remote.

(** The browser-side world: the reducer state held by [useReducer], the
    remote side, and the requests sent so far, oldest first. *)
Record World := mkWorld {
  state : CartContextState;
  remote : Remote;
  sent : list cartApi.Request
}.

Definition M (A : Type) : Type := World -> A * World.

#[export] Instance M_ret : MRet M := fun A a w => (a, w).
#[export] Instance M_bind : MBind M :=
  fun A B f m w => let (a, w') := m w in f a w'.

Definition dispatch (action : CartAction) : M unit :=
  fun w => (tt, mkWorld (cartReducer (state w) action) (remote w) (sent w)).

Definition await (request : cartApi.Request) : M (Settled Cart.t) :=
  fun w =>
    let (settled, remote') := fetch (remote w) request in
    (settled, mkWorld (state w) remote' (sent w ++ [request])).

Definition refreshCart : M unit :=
  dispatch (SET_LOADING true) ;;
  settled ← await cartApi.getCart;
  match settled with
  | Resolved cart => dispatch (SET_CART cart)
  | Rejected error =>
      dispatch (SET_ERROR (Some (errorMessage error "Failed to load cart")))
  end.

Definition addToCart (product : Product.t) (quantity : Z) : M unit :=
  if (quantity <=? 0)%Z then mret tt
  else
    dispatch (SET_LOADING true) ;;
    settled ← await (cartApi.addToCart (Product.id product) quantity);
    match settled with
    | Resolved updatedCart => dispatch (SET_CART updatedCart)
    | Rejected error =>
        dispatch (SET_ERROR (Some (errorMessage error "Failed to add item to cart")))
    end.

Definition removeFromCart (productId : JS.jsstring) : M unit :=
  dispatch (SET_LOADING true) ;;
  settled ← await (cartApi.removeFromCart productId);
  match settled with
  | Resolved updatedCart => dispatch (SET_CART updatedCart)
  | Rejected error =>
      dispatch (SET_ERROR (Some (errorMessage error "Failed to remove item from cart")))
  end.

Definition updateQuantity (productId : JS.jsstring) (quantity : Z) : M unit :=
  if (quantity <=? 0)%Z then removeFromCart productId
  else
    dispatch (SET_LOADING true) ;;
    settled ← await (cartApi.updateCartItem productId quantity);
    match settled with
    | Resolved updatedCart => dispatch (SET_CART updatedCart)
    | Rejected error =>
        dispatch (SET_ERROR (Some (errorMessage error "Failed to update cart item")))
    end.

(** [state.cart?.total_items || 0] *)
Definition getItemCount (w : World) : Z :=
  match cart (state w) with
  | Some c => Cart.total_items c
  | None => 0%Z
  end.

(** The three mutations a component can ask the provider for. *)
Inductive Mutation : Type :=
| Add (product : Product.t) (quantity : Z)
| Update (productId : JS.jsstring) (quantity : Z)
| Remove (productId : JS.jsstring).

Definition mutate (m : Mutation) : M unit :=
  match m with
  | Add product quantity => addToCart product quantity
  | Update productId quantity => updateQuantity productId quantity
  | Remove productId => removeFromCart productId
  end.

(** The shape the three mutations share: loading flag, request, then the
    transition chosen by the way the promise settled. *)
Definition roundTrip (request : cartApi.Request) (fallback : string) : M unit :=
  dispatch (SET_LOADING true) ;;
  settled ← await request;
  match settled with
  | Resolved updatedCart => dispatch (SET_CART updatedCart)
  | Rejected error => dispatch (SET_ERROR (Some (errorMessage error fallback)))
  end.

End Provider.

(** The remote call a mutation performs, if it performs one, and the message
    it falls back to when the thrown value is no [Error]. *)
Definition remote_call (m : Mutation) : option (cartApi.Request * string) :=
  match m with
  | Add product quantity =>
      if (quantity <=? 0)%Z then None
      else Some (cartApi.addToCart (Product.id product) quantity,
                 "Failed to add item to cart"%string)
  | Update productId quantity =>
      if (quantity <=? 0)%Z
      then Some (cartApi.removeFromCart productId,
                 "Failed to remove item from cart"%string)
      else Some (cartApi.updateCartItem productId quantity,
                 "Failed to update cart item"%string)
  | Remove productId =>
      Some (cartApi.removeFromCart productId,
            "Failed to remove item from cart"%string)
  end.

End CartContext.

(** ** The checkout page: form validation and submission *)

Module Checkout.

Record FormData := mkForm {
  email : JS.jsstring;
  phone : JS.jsstring;
  name : JS.jsstring;
  street : JS.jsstring;
  city : JS.jsstring;
  state : JS.jsstring;
  zip : JS.jsstring;
  cardNumber : JS.jsstring;
  cardholderName : JS.jsstring;
  expiryDate : JS.jsstring;
  securityCode : JS.jsstring;
  billingSameAsShipping : bool
}.

(** The object [newErrors] that [validateForm] fills, keyed by field name. *)
Definition newErrors (formData : FormData) : gmap string JS.jsstring :=
  let newErrors : gmap string JS.jsstring := ∅ in
  (* Required fields *)
  let newErrors := if negb (JS.truthy (email formData))
    then <["email" := JS.lit "Email is required"]> newErrors else newErrors in
  let newErrors := if negb (JS.truthy (name formData))
    then <["name" := JS.lit "Full name is required"]> newErrors else newErrors in
  let newErrors := if negb (JS.truthy (street formData))
    then <["street" := JS.lit "Street address is required"]> newErrors else newErrors in
  let newErrors := if negb (JS.truthy (city formData))
    then <["city" := JS.lit "City is required"]> newErrors else newErrors in
  let newErrors := if negb (JS.truthy (state formData))
    then <["state" := JS.lit "State is required"]> newErrors else newErrors in
  let newErrors := if negb (JS.truthy (zip formData))
    then <["zip" := JS.lit "ZIP code is required"]> newErrors else newErrors in
  let newErrors := if negb (JS.truthy (cardNumber formData))
    then <["cardNumber" := JS.lit "Card number is required"]> newErrors else newErrors in
  let newErrors := if negb (JS.truthy (cardholderName formData))
    then <["cardholderName" := JS.lit "Cardholder name is required"]> newErrors else newErrors in
  let newErrors := if negb (JS.truthy (expiryDate formData))
    then <["expiryDate" := JS.lit "Expiry date is required"]> newErrors else newErrors in
  let newErrors := if negb (JS.truthy (securityCode formData))
    then <["securityCode" := JS.lit "Security code is required"]> newErrors else newErrors in
  (* Email validation *)
  let newErrors :=
    if JS.truthy (email formData) && negb (JS.test JS.email_pattern (email formData))
    then <["email" := JS.lit "Please enter a valid email address"]> newErrors
    else newErrors in
  (* ZIP code validation *)
  let newErrors :=
    if JS.truthy (zip formData) && negb (JS.test JS.zip_pattern (zip formData))
    then <["zip" := JS.lit "Please enter a valid ZIP code"]> newErrors
    else newErrors in
  newErrors.

(** [validateForm()]: stores [newErrors] with [setErrors] and returns
    [Object.keys(newErrors).length === 0]. *)
Definition validateForm (formData : FormData) : bool :=
  Nat.eqb (size (newErrors formData)) 0.

(** What [handleSubmit] builds for [ordersApi.createOrder]. *)
Definition customerInfo (formData : FormData) : CustomerInfo.t :=
  {| CustomerInfo.name := name formData;
     CustomerInfo.email := email formData;
     CustomerInfo.phone := phone formData;
     CustomerInfo.shipping_address :=
       {| ShippingAddress.street := street formData;
          ShippingAddress.city := city formData;
          ShippingAddress.state := state formData;
          ShippingAddress.zip := zip formData |} |}.

Definition paymentInfo (formData : FormData) : PaymentInfo.t :=
  {| PaymentInfo.method := JS.lit "credit_card";
     PaymentInfo.last_four := JS.slice_last 4 (cardNumber formData) |}.

(** What the handler does to the page and the network, in order. *)
Inductive Effect : Type :=
| preventDefault
| alert (message : JS.jsstring)
| setErrors (errors : gmap string JS.jsstring)
| setIsSubmitting (value : bool)
| post (request : ordersApi.Request)
| routerPush (path : JS.jsstring)
| consoleError (reason : Thrown).

(** [!cart || cart.items.length === 0] *)
Definition cartIsEmpty (cart : option Cart.t) : bool :=
  match cart with
  | None => true
  | Some c => Nat.eqb (length (Cart.items c)) 0
  end.

Section Page.

Context {Remote : Type}.
Variable fetch : Remote -> ordersApi.Request -> Settled Order.t * Remote.

Definition handleSubmit (cart : option Cart.t) (formData : FormData)
    (remote : Remote) : list Effect * Remote :=
  if cartIsEmpty cart then
    ([preventDefault; alert (JS.lit "Your cart is empty")], remote)
  else if negb (validateForm formData) then
    ([preventDefault; setErrors (newErrors formData)], remote)
  else
    let request := ordersApi.createOrder (customerInfo formData) (paymentInfo formData) in
    let (settled, remote') := fetch remote request in
    ([preventDefault; setErrors (newErrors formData); setIsSubmitting true; post request]
       ++ match settled with
          | Resolved order =>
              [routerPush (JS.lit "/order-confirmation/" ++ Order.id order)]
          | Rejected error =>
              [consoleError error;
               alert (JS.lit "There was an error processing your order. Please try again.")]
          end
       ++ [setIsSubmitting false],
     remote').

End Page.

(** The requests among the effects of a run. *)
Definition posted (effects : list Effect) : list ordersApi.Request :=
  omap (fun e => match e with post r => Some r | _ => None end) effects.

(** What the form can find wrong with its fields: a required field left
    empty, an e-mail address or a ZIP code that its pattern does not denote. *)
Definition fieldProblem (fd : FormData) : Prop :=
  email fd = [] \/ name fd = [] \/ street fd = [] \/ city fd = []
  \/ state fd = [] \/ zip fd = [] \/ cardNumber fd = []
  \/ cardholderName fd = [] \/ expiryDate fd = [] \/ securityCode fd = []
  \/ ~ JS.Matches JS.email_pattern (email fd)
  \/ ~ JS.Matches JS.zip_pattern (zip fd).

End Checkout.

(** ** The services behind the API

    The FastAPI backend ([backend/main.py]: catalog, cart and order
    services) is not among the sources at hand; only its callers and its
    endpoint descriptions are.  The definitions of this module follow the
    specification's description of the services.  Money is an exact decimal
    here, as the specification's data model has it. *)

Module Service.

(** Modelled from the spec: the error taxonomy of its section 7.  The
    backend's exceptions are absent from the sources. *)
Inductive Error : Type :=
| NotFound
| InvalidQuantity
| ValidationError
| EmptyCart.

(** Modelled from the spec: a call returns its value or fails with one of
    the errors above. *)
Inductive Result (A : Type) : Type :=
| Ok (value : A)
| Fail (error : Error).
Arguments Ok {A} value.
Arguments Fail {A} error.

(** Modelled from the spec: the [Product] of the data model; the backend's
    models are absent from the sources. *)
Inductive RoastLevel := Light | Medium | Dark.

Record Product := mkProduct {
  id : string;
  name : string;
  description : string;
  price : Qc;
  category : string;
  roastLevel : RoastLevel;
  origin : string;
  imageUrl : string;
  inStock : bool;
  weight : string;
  flavorNotes : list string;
  processingMethod : string
}.

(** Modelled from the spec: the [CartEntry] of the data model. *)
Record CartEntry := mkEntry {
  productId : string;
  quantity : Z
}.

(** Modelled from the spec: the cart snapshot every cart call returns, with
    its derived totals.  The backend's models are absent from the sources. *)
Record Cart := mkCart {
  sessionId : string;
  entries : list CartEntry;
  totalItems : Z;
  subtotal : Qc
}.

(** Modelled from the spec: the [OrderLine] of the data model. *)
Record OrderLine := mkLine {
  lineProductId : string;
  productName : string;
  lineQuantity : Z;
  unitPrice : Qc;
  lineSubtotal : Qc
}.

(** Modelled from the spec: the customer and payment-stub information an
    order is submitted with. *)
Record CustomerInfo := mkCustomer {
  customerName : string;
  customerEmail : string;
  customerPhone : string;
  street : string;
  city : string;
  state : string;
  postalCode : string
}.

Record PaymentInfo := mkPayment {
  method : string;
  lastFour : string
}.

(** Modelled from the spec: the [Order] of the data model. *)
Inductive Status := pending | processing | shipped | delivered.

Record Order := mkOrder {
  orderId : N;
  orderNumber : string;
  lines : list OrderLine;
  customerInfo : CustomerInfo;
  orderSubtotal : Qc;
  tax : Qc;
  shipping : Qc;
  total : Qc;
  status : Status;
  createdAt : N;
  trackingNumber : option string
}.

(** Modelled from the spec: the keyed stores of one service instance, absent
    from the sources: the catalog loaded at start, session id to cart
    entries, order id to order, and the next free id. *)
Record Store := mkStore {
  products : list Product;
  carts : gmap string (list CartEntry);
  orders : gmap N Order;
  nextOrderId : N
}.

(** Modelled from the spec: what [listProducts] returns, the slice with the
    count of all matching products, the page and the page size. *)
Record ProductPage := mkPage {
  items : list Product;
  pageTotal : nat;
  page : Z;
  perPage : Z
}.

(** Modelled from the spec: [getProduct(id)] of the catalog service, absent
    from the sources; the product with that id, or [NotFound]. *)
Definition getProduct (pid : string) (st : Store) : Result Product :=
  match find (fun p => bool_decide (id p = pid)) (products st) with
  | Some p => Ok p
  | None => Fail NotFound
  end.

(** Modelled from the spec: the category filter of [listProducts], an exact
    match against [Product.category], absent from the sources. *)
Definition inCategory (filter : option string) (p : Product) : bool :=
  match filter with
  | Some c => bool_decide (category p = c)
  | None => true
  end.

(** Modelled from the spec: [listProducts(filter, page, perPage)] of the
    catalog service, absent from the sources.  [perPage] defaults to 12 and
    is clamped to 50, [page] defaults to 1; parameters below 1 are the
    invalid ones the endpoint answers with 400; the slice of the matching
    products in load order, empty past the end. *)
Definition listProducts (filter : option string) (page perPage : option Z)
    (st : Store) : Result ProductPage :=
  let page := default 1%Z page in
  let perPage := Z.min (default 12%Z perPage) 50 in
  if ((page <? 1) || (perPage <? 1))%Z then Fail ValidationError
  else
    let matching := List.filter (inCategory filter) (products st) in
    Ok {| items := take (Z.to_nat perPage)
                     (drop (Z.to_nat ((page - 1) * perPage)) matching);
          pageTotal := length matching;
          page := page;
          perPage := perPage |}.

(** Modelled from the spec: the order line of a cart entry, capturing the
    product's current name and price; an entry whose product does not
    resolve is invalid and yields no line.  Absent from the sources. *)
Definition lineOf (st : Store) (e : CartEntry) : option OrderLine :=
  match getProduct (productId e) st with
  | Ok p =>
      Some {| lineProductId := productId e;
              productName := name p;
              lineQuantity := quantity e;
              unitPrice := price p;
              lineSubtotal := (Q2Qc (inject_Z (quantity e)) * price p)%Qc |}
  | Fail _ => None
  end.

(** Modelled from the spec: the derived [subtotal], the sum of quantity x
    price over the entries.  Absent from the sources. *)
Definition subtotalOf (st : Store) (es : list CartEntry) : Qc :=
  foldr (fun l acc => (lineSubtotal l + acc)%Qc) (Q2Qc 0) (omap (lineOf st) es).

(** Modelled from the spec: the cart snapshot with its derived [totalItems]
    and [subtotal].  Absent from the sources. *)
Definition snapshot (st : Store) (sid : string) (es : list CartEntry) : Cart :=
  {| sessionId := sid;
     entries := es;
     totalItems := foldr (fun e acc => (quantity e + acc)%Z) 0%Z es;
     subtotal := subtotalOf st es |}.

(** Modelled from the spec: the entries of a session's cart, none if the
    session has no cart yet.  Absent from the sources. *)
Definition entriesOf (sid : string) (st : Store) : list CartEntry :=
  default [] (carts st !! sid).

(** Modelled from the spec: the store with one session's cart replaced, a
    single map update.  Absent from the sources. *)
Definition withCart (sid : string) (es : list CartEntry) (st : Store) : Store :=
  {| products := products st;
     carts := <[sid := es]> (carts st);
     orders := orders st;
     nextOrderId := nextOrderId st |}.

(** Modelled from the spec: [getCart(sessionId)] of the cart service, absent
    from the sources; never fails, and the cart is created on first
    access. *)
Definition getCart (sid : string) (st : Store) : Cart * Store :=
  let es := entriesOf sid st in
  (snapshot st sid es, withCart sid es st).

(** Modelled from the spec: whether a cart has an entry for a product.
    Absent from the sources. *)
Definition hasEntry (pid : string) (es : list CartEntry) : bool :=
  existsb (fun e => bool_decide (productId e = pid)) es.

(** Modelled from the spec: the quantity a cart holds of a product, if it
    has an entry for it.  Absent from the sources. *)
Definition quantityOf (pid : string) (es : list CartEntry) : option Z :=
  quantity <$> find (fun e => bool_decide (productId e = pid)) es.

(** Modelled from the spec: the entry for [pid] gets [f] applied to its
    quantity and stays where it is.  Absent from the sources. *)
Fixpoint updateEntry (f : Z -> Z) (pid : string) (es : list CartEntry)
  : list CartEntry :=
  match es with
  | [] => []
  | e :: rest =>
      if bool_decide (productId e = pid)
      then {| productId := pid; quantity := f (quantity e) |} :: rest
      else e :: updateEntry f pid rest
  end.

(** Modelled from the spec: [addItem(sessionId, productId, quantity)] of the
    cart service, absent from the sources.  [NotFound] for an unknown
    product, [InvalidQuantity] for a quantity of 0 or less; an existing
    entry is incremented, a new one is appended. *)
Definition addItem (sid pid : string) (q : Z) (st : Store) : Result Cart * Store :=
  match getProduct pid st with
  | Fail e => (Fail e, st)
  | Ok _ =>
      if (q <=? 0)%Z then (Fail InvalidQuantity, st)
      else
        let es := entriesOf sid st in
        let es' := if hasEntry pid es
                   then updateEntry (fun old => (old + q)%Z) pid es
                   else es ++ [{| productId := pid; quantity := q |}] in
        (Ok (snapshot st sid es'), withCart sid es' st)
  end.

(** Modelled from the spec: [removeItem(sessionId, productId)] of the cart
    service, absent from the sources; drops the entry if there is one and
    succeeds either way. *)
Definition removeItem (sid pid : string) (st : Store) : Result Cart * Store :=
  let es' := List.filter (fun e => negb (bool_decide (productId e = pid)))
               (entriesOf sid st) in
  (Ok (snapshot st sid es'), withCart sid es' st).

(** Modelled from the spec: [setQuantity(sessionId, productId, quantity)] of
    the cart service, absent from the sources.  [NotFound] if the product is
    not in the cart; a quantity of 0 or less is [removeItem]; otherwise the
    entry's quantity is replaced. *)
Definition setQuantity (sid pid : string) (q : Z) (st : Store) : Result Cart * Store :=
  let es := entriesOf sid st in
  if negb (hasEntry pid es) then (Fail NotFound, st)
  else if (q <=? 0)%Z then removeItem sid pid st
  else
    let es' := updateEntry (fun _ => q) pid es in
    (Ok (snapshot st sid es'), withCart sid es' st).

Section Orders.

(** The format checks on customer fields and the display number of an order
    are left open by the specification; they are parameters here. *)
Variable validCustomer : CustomerInfo -> bool.
Variable displayNumber : N -> string.

(** Modelled from the spec: [createOrder(sessionId, customerInfo,
    paymentInfo)] of the order service, absent from the sources.
    [EmptyCart] for a cart without entries, [ValidationError] for bad
    customer fields; otherwise the totals are computed, the lines are
    snapshotted, and the order is stored under a fresh id.  The cart is
    left as it is. *)
Definition createOrder (sid : string) (customer : CustomerInfo)
    (payment : PaymentInfo) (now : N) (st : Store) : Result Order * Store :=
  let es := entriesOf sid st in
  match es with
  | [] => (Fail EmptyCart, st)
  | _ :: _ =>
      if negb (validCustomer customer) then (Fail ValidationError, st)
      else
        let subtotal := subtotalOf st es in
        let shipping := if bool_decide (Q2Qc 75 ≤ subtotal)%Qc
                        then Q2Qc 0 else Q2Qc (599 # 100) in
        let tax := (subtotal * Q2Qc (875 # 10000))%Qc in
        let order :=
          {| orderId := nextOrderId st;
             orderNumber := displayNumber (nextOrderId st);
             lines := omap (lineOf st) es;
             customerInfo := customer;
             orderSubtotal := subtotal;
             tax := tax;
             shipping := shipping;
             total := (subtotal + shipping + tax)%Qc;
             status := pending;
             createdAt := now;
             trackingNumber := None |} in
        (Ok order,
         {| products := products st;
            carts := carts st;
            orders := <[nextOrderId st := order]> (orders st);
            nextOrderId := N.succ (nextOrderId st) |})
  end.

End Orders.

(** Modelled from the spec: [getOrder(id)] of the order service, absent from
    the sources. *)
Definition getOrder (oid : N) (st : Store) : Result Order :=
  match orders st !! oid with
  | Some o => Ok o
  | None => Fail NotFound
  end.

(** Modelled from the spec: the calls that change a service's stores, and
    the store each of them leaves behind.  Absent from the sources. *)
Inductive Call : Type :=
| CallGetCart (sid : string)
| CallAddItem (sid pid : string) (q : Z)
| CallSetQuantity (sid pid : string) (q : Z)
| CallRemoveItem (sid pid : string)
| CallCreateOrder (sid : string) (customer : CustomerInfo) (payment : PaymentInfo)
    (now : N).

Section Runs.
Variable validCustomer : CustomerInfo -> bool.
Variable displayNumber : N -> string.

(** Modelled from the spec: the store a call leaves behind. *)
Definition perform (c : Call) (st : Store) : Store :=
  match c with
  | CallGetCart sid => snd (getCart sid st)
  | CallAddItem sid pid q => snd (addItem sid pid q st)
  | CallSetQuantity sid pid q => snd (setQuantity sid pid q st)
  | CallRemoveItem sid pid => snd (removeItem sid pid st)
  | CallCreateOrder sid customer payment now =>
      snd (createOrder validCustomer displayNumber sid customer payment now st)
  end.

(** Modelled from the spec: a sequence of calls, served one after the
    other. *)
Definition performAll (cs : list Call) (st : Store) : Store :=
  foldl (fun s c => perform c s) st cs.

End Runs.

(** Modelled from the spec: the data model's invariant on carts, every entry
    refers to a product of the catalog and no product has two entries.
    Absent from the sources. *)
Definition known (st : Store) (pid : string) : Prop :=
  exists p, getProduct pid st = Ok p.

(** Modelled from the spec: every cart of the store satisfies the
    invariant. *)
Definition wellFormed (st : Store) : Prop :=
  forall sid es, carts st !! sid = Some es ->
    NoDup (map productId es) /\ Forall (known st) (map productId es).

End Service.

(** ** Sample data *)

Module Samples.

Definition houseBlend : Product.t :=
  {| Product.id := JS.lit "1";
     Product.name := JS.lit "House Blend";
     Product.description := JS.lit "Balanced and smooth";
     Product.price := 18.99;
     Product.category := JS.lit "beans";
     Product.roast_level := Product.Medium;
     Product.origin := JS.lit "Colombia";
     Product.image_url := JS.lit "/images/house-blend.jpg";
     Product.in_stock := true;
     Product.weight := JS.lit "12oz";
     Product.flavor_notes := [JS.lit "Chocolate"; JS.lit "Caramel"];
     Product.processing_method := JS.lit "Washed" |}.

Definition twoBags : Cart.t :=
  {| Cart.cart_id := JS.lit "session-1";
     Cart.items := [ {| CartItem.product_id := JS.lit "1";
                        CartItem.product := houseBlend;
                        CartItem.quantity := 2;
                        CartItem.subtotal := 37.98 |} ];
     Cart.total_items := 2;
     Cart.subtotal := 37.98 |}.

Definition noItems : Cart.t :=
  {| Cart.cart_id := JS.lit "session-1";
     Cart.items := [];
     Cart.total_items := 0;
     Cart.subtotal := 0 |}.

Definition filledForm : Checkout.FormData :=
  {| Checkout.email := JS.lit "ada@example.com";
     Checkout.phone := JS.lit "";
     Checkout.name := JS.lit "Ada Lovelace";
     Checkout.street := JS.lit "12 Mill Lane";
     Checkout.city := JS.lit "Cambridge";
     Checkout.state := JS.lit "MA";
     Checkout.zip := JS.lit "02139";
     Checkout.cardNumber := JS.lit "4111111111111234";
     Checkout.cardholderName := JS.lit "Ada Lovelace";
     Checkout.expiryDate := JS.lit "12/29";
     Checkout.securityCode := JS.lit "123";
     Checkout.billingSameAsShipping := true |}.

(** The same customer paying with another card. *)
Definition otherCard : Checkout.FormData :=
  {| Checkout.email := JS.lit "ada@example.com";
     Checkout.phone := JS.lit "";
     Checkout.name := JS.lit "Ada Lovelace";
     Checkout.street := JS.lit "12 Mill Lane";
     Checkout.city := JS.lit "Cambridge";
     Checkout.state := JS.lit "MA";
     Checkout.zip := JS.lit "02139";
     Checkout.cardNumber := JS.lit "5500005555551234";
     Checkout.cardholderName := JS.lit "Ada Lovelace";
     Checkout.expiryDate := JS.lit "01/31";
     Checkout.securityCode := JS.lit "987";
     Checkout.billingSameAsShipping := true |}.

(** The same customer with a ZIP code one digit short. *)
Definition shortZip : Checkout.FormData :=
  {| Checkout.email := JS.lit "ada@example.com";
     Checkout.phone := JS.lit "";
     Checkout.name := JS.lit "Ada Lovelace";
     Checkout.street := JS.lit "12 Mill Lane";
     Checkout.city := JS.lit "Cambridge";
     Checkout.state := JS.lit "MA";
     Checkout.zip := JS.lit "0213";
     Checkout.cardNumber := JS.lit "4111111111111234";
     Checkout.cardholderName := JS.lit "Ada Lovelace";
     Checkout.expiryDate := JS.lit "12/29";
     Checkout.securityCode := JS.lit "123";
     Checkout.billingSameAsShipping := true |}.

Definition confirmation : Order.t :=
  {| Order.id := JS.lit "ord-1";
     Order.order_number := JS.lit "CS-0001";
     Order.items := [ {| OrderItem.product_id := JS.lit "1";
                         OrderItem.product_name := JS.lit "House Blend";
                         OrderItem.quantity := 2;
                         OrderItem.price := 18.99;
                         OrderItem.subtotal := 37.98 |} ];
     Order.customer_info := Checkout.customerInfo filledForm;
     Order.subtotal := 37.98;
     Order.tax := 3.32325;
     Order.shipping := 5.99;
     Order.total := 47.29325;
     Order.status := Order.pending;
     Order.created_at := JS.lit "2024-01-01T00:00:00Z";
     Order.tracking_number := None |}.

(** A cart endpoint that answers every request with an error, as the server
    does for a quantity it refuses. *)
Definition refusing (_ : unit) (_ : cartApi.Request) : Settled Cart.t * unit :=
  (Rejected (ErrorObject (JS.lit "Quantity must be greater than 0")), tt).

(** An order endpoint that accepts whatever it is sent. *)
Definition accepting (_ : unit) (_ : ordersApi.Request) : Settled Order.t * unit :=
  (Resolved confirmation, tt).

Definition freshWorld : @CartContext.World unit :=
  CartContext.mkWorld CartContext.initialState tt [].

End Samples.

Module ServiceSamples.
Import Service.

Definition espresso : Product :=
  {| id := "1"; name := "Espresso Roast"; description := "Bold and syrupy";
     price := Q2Qc (999 # 100); category := "beans"; roastLevel := Dark;
     origin := "Brazil"; imageUrl := "/images/espresso.jpg"; inStock := true;
     weight := "12oz"; flavorNotes := ["Cocoa"; "Molasses"];
     processingMethod := "Natural" |}.

Definition breakfast : Product :=
  {| id := "2"; name := "Breakfast Blend"; description := "Bright and lively";
     price := Q2Qc (1450 # 100); category := "ground"; roastLevel := Light;
     origin := "Ethiopia"; imageUrl := "/images/breakfast.jpg"; inStock := true;
     weight := "12oz"; flavorNotes := ["Citrus"];
     processingMethod := "Washed" |}.

Definition decafPods : Product :=
  {| id := "3"; name := "Decaf Pods"; description := "Mellow";
     price := Q2Qc (1299 # 100); category := "pods"; roastLevel := Medium;
     origin := "Colombia"; imageUrl := "/images/pods.jpg"; inStock := true;
     weight := "10ct"; flavorNotes := [];
     processingMethod := "Washed" |}.

(** A freshly started service. *)
Definition started : Store :=
  {| products := [espresso; breakfast; decafPods];
     carts := ∅;
     orders := ∅;
     nextOrderId := 1 |}.

(** The same service once session [s1] holds two bags of espresso. *)
Definition shopping : Store :=
  withCart "s1" [ {| productId := "1"; quantity := 2 |} ] started.

Definition ada : CustomerInfo :=
  {| customerName := "Ada Lovelace"; customerEmail := "ada@example.com";
     customerPhone := ""; street := "12 Mill Lane"; city := "Cambridge";
     state := "MA"; postalCode := "02139" |}.

Definition card : PaymentInfo := {| method := "credit_card"; lastFour := "1234" |}.

End ServiceSamples.

(** ** The components that call the cart context *)

Module Category.
Record t := mk {
  id : JS.jsstring;
  name : JS.jsstring;
  description : JS.jsstring;
  display_order : Z;
  image_url : JS.jsstring
}.
End Category.

(** [QuantitySelector] of the product detail page: what a click on [-] or
    [+] hands to [onQuantityChange], if anything. *)
Module QuantitySelector.

(** The default of the [max] prop. *)
Definition defaultMax : Z := 10.

Definition handleDecrease (quantity : Z) : option Z :=
  if (quantity >? 1)%Z then Some (quantity - 1)%Z else None.

Definition handleIncrease (max quantity : Z) : option Z :=
  if (quantity <? max)%Z then Some (quantity + 1)%Z else None.

End QuantitySelector.

Inductive Click : Type := Minus | Plus.

(** The product detail page: the state its handlers read and set. *)
Module ProductDetailPage.

Record State := mkState {
  product : option Product.t;
  quantity : Z;
  isAddingToCart : bool
}.

(** The page as it is once [product] has loaded: [useState(1)],
    [useState(false)]. *)
Definition loaded (p : Product.t) : State :=
  {| product := Some p; quantity := 1; isAddingToCart := false |}.

(** A click on the selector; [onQuantityChange] is [setQuantity]. *)
Definition click (c : Click) (st : State) : State :=
  match match c with
        | Minus => QuantitySelector.handleDecrease (quantity st)
        | Plus => QuantitySelector.handleIncrease QuantitySelector.defaultMax (quantity st)
        end with
  | Some q => {| product := product st; quantity := q;
                 isAddingToCart := isAddingToCart st |}
  | None => st
  end.

Section Handlers.
Context {Remote : Type}.
Variable fetch : Remote -> cartApi.Request -> Settled Cart.t * Remote.

(** [handleAddToCart]: the page state and the cart context's world once the
    handler has run to its end.  [addToCart] absorbs every rejection, so
    the handler's own [catch] never runs; [setQuantity(1)] and the
    [finally] always do. *)
Definition handleAddToCart (st : State) (w : @CartContext.World Remote)
  : State * @CartContext.World Remote :=
  match product st with
  | None => (st, w)
  | Some p =>
      if isAddingToCart st || negb (Product.in_stock p) then (st, w)
      else
        let w' := snd (CartContext.addToCart fetch p (quantity st) w) in
        ({| product := Some p; quantity := 1; isAddingToCart := false |}, w')
  end.

End Handlers.
End ProductDetailPage.

(** The product card of the listing pages. *)
Module ProductCard.

Section Handlers.
Context {Remote : Type}.
Variable fetch : Remote -> cartApi.Request -> Settled Cart.t * Remote.

(** [handleAddToCart]: the flag [isAddingToCart] and the world once the
    handler has run to its end. *)
Definition handleAddToCart (product : Product.t) (isAddingToCart : bool)
    (w : @CartContext.World Remote) : bool * @CartContext.World Remote :=
  if isAddingToCart || negb (Product.in_stock product) then (isAddingToCart, w)
  else (false, snd (CartContext.addToCart fetch product 1 w)).

End Handlers.
End ProductCard.

(** The cart page's row for one item. *)
Module CartItemRow.

Record State := mkState {
  isUpdating : bool;
  isRemoving : bool
}.

Section Handlers.
Context {Remote : Type}.
Variable fetch : Remote -> cartApi.Request -> Settled Cart.t * Remote.


End Handlers.
End CartItemRow.

(** The reads the provider offers, and what the pages make of them. *)
Module CartReads.

(** [state.cart?.subtotal || 0]: NaN and both zeros are falsy. *)
Definition getCartTotal (state : CartContext.CartContextState) : float :=
  match CartContext.cart state with
  | Some c =>
      if PrimFloat.is_nan (Cart.subtotal c) || PrimFloat.is_zero (Cart.subtotal c)
      then 0%float else Cart.subtotal c
  | None => 0%float
  end.

(** Which of its four bodies [CartPage] renders. *)
Inductive CartPageView : Type :=
| Spinner
| ErrorScreen (message : JS.jsstring)
| EmptyCartScreen
| ItemsAndSummary (items : list CartItem.t) (summary : Pricing.Summary).

Definition CartPage (state : CartContext.CartContextState) : CartPageView :=
  if CartContext.loading state then Spinner
  else
    match CartContext.error state with
    | Some (c :: message) => ErrorScreen (c :: message)
    | _ =>
        match CartContext.cart state with
        | None => EmptyCartScreen
        | Some cart =>
            if Nat.eqb (length (Cart.items cart)) 0 then EmptyCartScreen
            else ItemsAndSummary (Cart.items cart)
                   (Pricing.OrderSummary (Cart.subtotal cart))
        end
    end.

(** Which of its three bodies [CheckoutPage] renders. *)
Inductive CheckoutPageView : Type :=
| CheckoutSpinner
| CheckoutEmptyCart
| CheckoutForm (summary : Pricing.Summary).

Definition CheckoutPage (state : CartContext.CartContextState) : CheckoutPageView :=
  if CartContext.loading state then CheckoutSpinner
  else
    match CartContext.cart state with
    | None => CheckoutEmptyCart
    | Some cart =>
        if Nat.eqb (length (Cart.items cart)) 0 then CheckoutEmptyCart
        else CheckoutForm (Pricing.CheckoutSummary cart)
    end.

(** The cart page's hint [subtotal < 75 && ...] under the summary. *)
Definition freeShippingHint (subtotal : float) : bool :=
  PrimFloat.ltb subtotal 75.

End CartReads.

(** The product listing page: filter and per-category counts. *)
Module ProductsPage.

(** The filter effect: [selectedCategory] is [string | null], and the empty
    string is as falsy as [null]. *)
Definition filteredProducts (products : list Product.t)
    (selectedCategory : option JS.jsstring) : list Product.t :=
  match selectedCategory with
  | Some (c :: category) =>
      List.filter (fun product => bool_decide (Product.category product = c :: category))
        products
  | _ => products
  end.

(** An assignment [counts[key] = value] on a plain object: the key
    [__proto__] reaches the prototype setter, which ignores a number. *)
Definition assign (key : JS.jsstring) (value : nat) (counts : gmap JS.jsstring nat)
  : gmap JS.jsstring nat :=
  if bool_decide (key = JS.lit "__proto__") then counts else <[key := value]> counts.

Definition getProductCounts (categories : list Category.t) (products : list Product.t)
  : gmap JS.jsstring nat :=
  foldl
    (fun counts category =>
       assign (Category.id category)
         (length (List.filter
                    (fun product =>
                       bool_decide (Product.category product = Category.id category))
                    products))
         counts)
    ∅ categories.

(** [Object.values(productCounts).reduce((sum, count) => sum + count, 0)],
    the number on the [All] button. *)
Definition allCount (productCounts : gmap JS.jsstring nat) : nat :=
  map_fold (fun _ count sum => sum + count) 0 productCounts.

End ProductsPage.

Module PageSamples.

Definition soldOut : Product.t :=
  {| Product.id := JS.lit "7";
     Product.name := JS.lit "Geisha Reserve";
     Product.description := JS.lit "Floral and rare";
     Product.price := 42.5;
     Product.category := JS.lit "beans";
     Product.roast_level := Product.Light;
     Product.origin := JS.lit "Panama";
     Product.image_url := JS.lit "/images/geisha.jpg";
     Product.in_stock := false;
     Product.weight := JS.lit "8oz";
     Product.flavor_notes := [JS.lit "Jasmine"];
     Product.processing_method := JS.lit "Washed" |}.

Definition beans : Category.t :=
  {| Category.id := JS.lit "beans";
     Category.name := JS.lit "Whole Bean";
     Category.description := JS.lit "Whole bean coffee";
     Category.display_order := 1;
     Category.image_url := JS.lit "/images/beans.jpg" |}.

Definition pods : Category.t :=
  {| Category.id := JS.lit "pods";
     Category.name := JS.lit "Coffee Pods";
     Category.description := JS.lit "Single-serve pods";
     Category.display_order := 3;
     Category.image_url := JS.lit "/images/pods.jpg" |}.



End PageSamples.

(** A browsing session as the provider sees it: the operations the
    components ask for, one after the other. *)
Module CartSession.

Inductive Operation : Type :=
| Refresh
| Mutate (m : CartContext.Mutation).

Section Runs.
Context {Remote : Type}.
Variable fetch : Remote -> cartApi.Request -> Settled Cart.t * Remote.

Definition perform (op : Operation) (w : @CartContext.World Remote)
  : @CartContext.World Remote :=
  match op with
  | Refresh => snd (CartContext.refreshCart fetch w)
  | Mutate m => snd (CartContext.mutate fetch m w)
  end.

Definition performAll (ops : list Operation) (w : @CartContext.World Remote)
  : @CartContext.World Remote :=
  foldl (fun w op => perform op w) w ops.

End Runs.
End CartSession.

(** * Part II. Properties *)

(** ** The matcher decides the patterns *)

Module JSFacts.
Import JS.

Lemma truthy_false (s : jsstring) : truthy s = false <-> s = [].
Proof. destruct s; simpl; split; congruence. Qed.

Lemma truthy_true (s : jsstring) : truthy s = true <-> s <> [].
Proof. destruct s; simpl; split; congruence. Qed.

Lemma seq_inv (r1 r2 : regex) (s : jsstring) :
  Matches (Seq r1 r2) s ->
  exists s1 s2, s = s1 ++ s2 /\ Matches r1 s1 /\ Matches r2 s2.
Proof. inversion 1; subst; eauto. Qed.

Lemma alt_inv (r1 r2 : regex) (s : jsstring) :
  Matches (Alt r1 r2) s -> Matches r1 s \/ Matches r2 s.
Proof. inversion 1; subst; auto. Qed.

Lemma class_inv (p : N -> bool) (s : jsstring) :
  Matches (Class p) s -> exists c, s = [c] /\ p c = true.
Proof. inversion 1; subst; eauto. Qed.

Lemma eps_inv (s : jsstring) : Matches Eps s -> s = [].
Proof. inversion 1; reflexivity. Qed.

Lemma nullable_spec (r : regex) : nullable r = true <-> Matches r [].
Proof.
  induction r as [| |p|r1 IH1 r2 IH2|r1 IH1 r2 IH2|r1 IH1]; simpl.
  - split; [discriminate | inversion 1].
  - split; [constructor | reflexivity].
  - split; [discriminate | inversion 1].
  - rewrite andb_true_iff, IH1, IH2. split.
    + intros [H1 H2]. exact (MSeq _ _ [] [] H1 H2).
    + intros H. apply seq_inv in H as (s1 & s2 & E & H1 & H2).
      symmetry in E. apply app_eq_nil in E as [-> ->]. auto.
  - rewrite orb_true_iff, IH1, IH2. split.
    + intros [H|H]; [apply MAltL | apply MAltR]; exact H.
    + apply alt_inv.
  - split; [constructor | reflexivity].
Qed.

(** A non-empty match of [r*] starts with a non-empty match of [r]. *)
Lemma star_cons_inv (r : regex) (c : N) (s : jsstring) :
  Matches (Star r) (c :: s) ->
  exists s1 s2, s = s1 ++ s2 /\ Matches r (c :: s1) /\ Matches (Star r) s2.
Proof.
  intros H. remember (Star r) as r' eqn:Er. remember (c :: s) as w eqn:Ew.
  revert s Ew.
  induction H as [| | | | | |r0 s1 s2 H1 _ H2 IH2]; intros t Ew; try discriminate.
  injection Er as ->.
  destruct s1 as [|c1 s1]; simpl in Ew.
  - apply IH2; auto.
  - injection Ew as -> <-. exists s1, s2. auto.
Qed.

Lemma deriv_spec (r : regex) (c : N) (s : jsstring) :
  Matches (deriv c r) s <-> Matches r (c :: s).
Proof.
  revert s.
  induction r as [| |p|r1 IH1 r2 IH2|r1 IH1 r2 IH2|r1 IH1]; intros s; simpl.
  - split; inversion 1.
  - split; inversion 1.
  - destruct (p c) eqn:Hp; split.
    + intros H. apply eps_inv in H as ->. constructor. exact Hp.
    + intros H. apply class_inv in H as (c' & E & _).
      injection E as _ ->. constructor.
    + inversion 1.
    + intros H. apply class_inv in H as (c' & E & Hc).
      injection E as <- _. congruence.
  - assert (Hseq : Matches (Seq (deriv c r1) r2) s ->
                   Matches (Seq r1 r2) (c :: s)).
    { intros H. apply seq_inv in H as (s1 & s2 & -> & H1 & H2).
      apply IH1 in H1. exact (MSeq _ _ (c :: s1) s2 H1 H2). }
    assert (Hinv : Matches (Seq r1 r2) (c :: s) ->
                   Matches (Seq (deriv c r1) r2) s
                   \/ (Matches r1 [] /\ Matches r2 (c :: s))).
    { intros H. apply seq_inv in H as (s1 & s2 & E & H1 & H2).
      destruct s1 as [|c1 s1]; simpl in E.
      - subst s2. right. auto.
      - injection E as -> ->. left.
        constructor; [apply IH1; exact H1 | exact H2]. }
    destruct (nullable r1) eqn:Hn.
    + split.
      * intros H. apply alt_inv in H as [H|H]; [auto|].
        apply IH2 in H. apply nullable_spec in Hn.
        exact (MSeq _ _ [] (c :: s) Hn H).
      * intros H. destruct (Hinv H) as [H'|[_ H']];
          [apply MAltL; exact H' | apply MAltR, IH2; exact H'].
    + split; [exact Hseq|].
      intros H. destruct (Hinv H) as [H'|[H' _]]; [exact H'|].
      apply nullable_spec in H'. congruence.
  - split; intros H; apply alt_inv in H as [H|H];
      solve [apply MAltL, IH1; exact H | apply MAltR, IH2; exact H].
  - split.
    + intros H. apply seq_inv in H as (s1 & s2 & -> & H1 & H2).
      apply IH1 in H1. exact (MStarS _ (c :: s1) s2 H1 H2).
    + intros H. apply star_cons_inv in H as (s1 & s2 & -> & H1 & H2).
      constructor; [apply IH1; exact H1 | exact H2].
Qed.

(** [test] answers [true] exactly on the strings the pattern denotes. *)
Lemma test_spec (r : regex) (s : jsstring) : test r s = true <-> Matches r s.
Proof.
  revert r. induction s as [|c s IH]; intros r; simpl.
  - apply nullable_spec.
  - rewrite IH. apply deriv_spec.
Qed.

Lemma test_false (r : regex) (s : jsstring) : test r s = false <-> ~ Matches r s.
Proof.
  rewrite <- test_spec. destruct (test r s); split; congruence.
Qed.

(** What the shapes used by the two patterns denote. *)
Lemma star_class (p : N -> bool) (s : jsstring) :
  Matches (Star (Class p)) s <-> forallb p s = true.
Proof.
  split.
  - intros H. remember (Star (Class p)) as r eqn:Er.
    induction H as [| | | | | |r0 s1 s2 H1 _ H2 IH2]; try discriminate; [reflexivity|].
    injection Er as ->. apply class_inv in H1 as (c & -> & Hc).
    simpl. rewrite Hc. auto.
  - induction s as [|c s IH]; simpl; [constructor|].
    rewrite andb_true_iff. intros [Hc Hs].
    exact (MStarS _ [c] s (MClass p c Hc) (IH Hs)).
Qed.

Lemma plus_class (p : N -> bool) (s : jsstring) :
  Matches (Plus (Class p)) s <-> s <> [] /\ forallb p s = true.
Proof.
  unfold Plus. split.
  - intros H. apply seq_inv in H as (s1 & s2 & -> & H1 & H2).
    apply class_inv in H1 as (c & -> & Hc). apply star_class in H2.
    simpl. rewrite Hc, H2. split; [discriminate | reflexivity].
  - intros [Hne Hs]. destruct s as [|c s]; [congruence|].
    simpl in Hs. apply andb_true_iff in Hs as [Hc Hs].
    exact (MSeq _ _ [c] s (MClass p c Hc) (proj2 (star_class p s) Hs)).
Qed.

Lemma rep_class (p : N -> bool) (n : nat) (s : jsstring) :
  Matches (Rep n (Class p)) s <-> length s = n /\ forallb p s = true.
Proof.
  revert s. induction n as [|n IH]; intros s; simpl.
  - split.
    + intros H. apply eps_inv in H as ->. auto.
    + intros [Hl _]. destruct s; [constructor | discriminate].
  - split.
    + intros H. apply seq_inv in H as (s1 & s2 & -> & H1 & H2).
      apply class_inv in H1 as (c & -> & Hc). apply IH in H2 as [Hl Hs].
      simpl. rewrite Hc, Hl, Hs. auto.
    + intros [Hl Hs]. destruct s as [|c s]; [discriminate|].
      simpl in Hl, Hs. apply andb_true_iff in Hs as [Hc Hs].
      injection Hl as Hl.
      exact (MSeq _ _ [c] s (MClass p c Hc) (proj2 (IH s) (conj Hl Hs))).
Qed.

Lemma char_class (a : string) (c : N) (s : jsstring) :
  lit a = [c] -> Matches (Class (is_char a)) s <-> s = [c].
Proof.
  intros Ha. unfold is_char. rewrite Ha. split.
  - intros H. apply class_inv in H as (x & -> & Hx).
    apply N.eqb_eq in Hx as ->. reflexivity.
  - intros ->. constructor. apply N.eqb_refl.
Qed.

(** The e-mail pattern: three non-empty runs free of white space and [@],
    separated by one [@] (code unit 64) and one [.] (code unit 46). *)
Lemma email_pattern_spec (s : jsstring) :
  Matches email_pattern s <->
  exists user host tld,
    s = user ++ [64%N] ++ host ++ [46%N] ++ tld
    /\ (user <> [] /\ forallb not_space_at user = true)
    /\ (host <> [] /\ forallb not_space_at host = true)
    /\ (tld <> [] /\ forallb not_space_at tld = true).
Proof.
  unfold email_pattern. split.
  - intros H.
    apply seq_inv in H as (user & s1 & -> & Hu & H).
    apply seq_inv in H as (at_ & s2 & -> & Ha & H).
    apply seq_inv in H as (host & s3 & -> & Hh & H).
    apply seq_inv in H as (dot & tld & -> & Hd & Ht).
    apply (char_class "@" 64%N) in Ha; [subst at_ | reflexivity].
    apply (char_class "." 46%N) in Hd; [subst dot | reflexivity].
    apply plus_class in Hu, Hh, Ht. exists user, host, tld. auto.
  - intros (user & host & tld & -> & Hu & Hh & Ht).
    apply plus_class in Hu, Hh, Ht.
    repeat (constructor; try assumption); apply N.eqb_refl.
Qed.

(** The ZIP pattern: five digits, optionally followed by [-] (code unit 45)
    and four more digits. *)
Lemma zip_pattern_spec (s : jsstring) :
  Matches zip_pattern s <->
  exists five rest,
    s = five ++ rest
    /\ (length five = 5 /\ forallb is_digit five = true)
    /\ (rest = []
        \/ exists four, rest = [45%N] ++ four
             /\ length four = 4 /\ forallb is_digit four = true).
Proof.
  unfold zip_pattern, Opt. split.
  - intros H.
    apply seq_inv in H as (five & rest & -> & H5 & H).
    apply rep_class in H5. exists five, rest. repeat split; try apply H5.
    apply alt_inv in H as [H|H].
    + apply seq_inv in H as (dash & four & -> & Hd & H4).
      apply (char_class "-" 45%N) in Hd; [subst dash | reflexivity].
      apply rep_class in H4. right. exists four. auto.
    + left. apply eps_inv in H. exact H.
  - intros (five & rest & -> & H5 & H).
    apply rep_class in H5. constructor; [exact H5|].
    destruct H as [->|(four & -> & H4)].
    + apply MAltR. constructor.
    + apply rep_class in H4. apply MAltL.
      constructor; [constructor; apply N.eqb_refl | exact H4].
Qed.

Example email_accepts : test email_pattern (lit "ada@example.co.uk") = true.
Proof. reflexivity. Qed.

Example email_rejects_space : test email_pattern (lit "ada @example.com") = false.
Proof. reflexivity. Qed.

Example email_rejects_no_dot : test email_pattern (lit "ada@example") = false.
Proof. reflexivity. Qed.

Example zip_accepts_five : test zip_pattern (lit "02139") = true.
Proof. reflexivity. Qed.

Example zip_accepts_nine : test zip_pattern (lit "02139-4307") = true.
Proof. reflexivity. Qed.

Example zip_rejects_short : test zip_pattern (lit "0213") = false.
Proof. reflexivity. Qed.

Example slice_last_long : slice_last 4 (lit "4111111111111234") = lit "1234".
Proof. reflexivity. Qed.

Example slice_last_short : slice_last 4 (lit "12") = lit "12".
Proof. reflexivity. Qed.

End JSFacts.

(** ** Order summary *)

(** The checkout page's summary is the cart page's, taken at
    [cart.subtotal]. *)
Lemma CheckoutSummary_OrderSummary (cart : Cart.t) :
  Pricing.CheckoutSummary cart = Pricing.OrderSummary (Cart.subtotal cart).
Proof. reflexivity. Qed.

(** C1. For every subtotal [s] the order summary (on the cart page and on
    the checkout page alike) has shipping 0 if [s >= 75] and 5.99 otherwise,
    tax [s * 0.0875] and total [s + shipping + tax]; a subtotal of 50 gives
    shipping 5.99, tax 4.375 and total 60.365, a subtotal of 80 gives
    shipping 0, tax 7 and total 87. *)
Theorem order_summary_computation :
  (forall s : float,
      let summary := Pricing.OrderSummary s in
      Pricing.shipping summary = (if PrimFloat.leb 75 s then 0%float else 5.99%float)
      /\ Pricing.tax summary = PrimFloat.mul s 0.0875
      /\ Pricing.total summary
         = PrimFloat.add (PrimFloat.add s (Pricing.shipping summary))
                         (Pricing.tax summary))
  /\ (forall cart : Cart.t,
         Pricing.CheckoutSummary cart = Pricing.OrderSummary (Cart.subtotal cart))
  /\ Pricing.OrderSummary 50 = Pricing.mkSummary 5.99 4.375 60.365
  /\ Pricing.OrderSummary 80 = Pricing.mkSummary 0 7 87.
Proof.
  split; [|split; [|split]].
  - intros s. cbv zeta. unfold Pricing.OrderSummary. simpl. auto.
  - exact CheckoutSummary_OrderSummary.
  - vm_compute. reflexivity.
  - vm_compute. reflexivity.
Qed.

(** ** The cart context *)

Module CartContextFacts.
Import CartContext.

(** An error transition leaves the cached cart alone, whatever the state. *)
Lemma SET_ERROR_keeps_cart (st : CartContextState) (message : option JS.jsstring) :
  cart (cartReducer st (SET_ERROR message)) = cart st.
Proof. reflexivity. Qed.

Lemma SET_LOADING_keeps_cart (st : CartContextState) (flag : bool) :
  cart (cartReducer st (SET_LOADING flag)) = cart st.
Proof. reflexivity. Qed.

(** A cart transition forgets the previous cart and the previous error. *)
Lemma SET_CART_replaces (st : CartContextState) (snapshot : Cart.t) :
  cartReducer st (SET_CART snapshot)
  = {| cart := Some snapshot; loading := false; error := None |}.
Proof. reflexivity. Qed.

Section Runs.
Context {Remote : Type}.
Variable fetch : Remote -> cartApi.Request -> Settled Cart.t * Remote.

Lemma roundTrip_spec (request : cartApi.Request) (fallback : string) (w : World) :
  let w' := snd (roundTrip fetch request fallback w) in
  sent w' = sent w ++ [request]
  /\ remote w' = snd (fetch (remote w) request)
  /\ state w' =
     match fst (fetch (remote w) request) with
     | Resolved snapshot =>
         {| cart := Some snapshot; loading := false; error := None |}
     | Rejected reason =>
         {| cart := cart (state w); loading := false;
            error := Some (errorMessage reason fallback) |}
     end.
Proof.
  cbv zeta. unfold roundTrip, mbind, M_bind, dispatch, await. simpl.
  destruct (fetch (remote w) request) as [[snapshot|reason] remote']; simpl; auto.
Qed.

(** Every mutation is either nothing or one round trip. *)
Lemma mutate_unfold (m : Mutation) :
  mutate fetch m =
  match remote_call m with
  | None => mret tt
  | Some (request, fallback) => roundTrip fetch request fallback
  end.
Proof.
  destruct m as [product quantity|productId quantity|productId]; simpl;
    unfold addToCart, updateQuantity;
    try destruct (quantity <=? 0)%Z; reflexivity.
Qed.

End Runs.
End CartContextFacts.

(** C7. Whatever the cached state and whatever the mutation (add, update,
    remove): if its remote call succeeds, the cached cart becomes the
    returned snapshot and the error is cleared; if the call fails, the error
    becomes a message and the cached cart stays the one from before. *)
Theorem mutation_success_replaces_failure_keeps
    (Remote : Type)
    (fetch : Remote -> cartApi.Request -> Settled Cart.t * Remote)
    (m : CartContext.Mutation) (w : @CartContext.World Remote) :
  let w' := snd (CartContext.mutate fetch m w) in
  match CartContext.remote_call m with
  | None => w' = w
  | Some (request, fallback) =>
      CartContext.sent w' = CartContext.sent w ++ [request]
      /\ match fst (fetch (CartContext.remote w) request) with
         | Resolved snapshot =>
             CartContext.cart (CartContext.state w') = Some snapshot
             /\ CartContext.error (CartContext.state w') = None
         | Rejected reason =>
             CartContext.error (CartContext.state w')
               = Some (errorMessage reason fallback)
             /\ CartContext.cart (CartContext.state w')
                = CartContext.cart (CartContext.state w)
         end
  end.
Proof.
  cbv zeta. rewrite CartContextFacts.mutate_unfold.
  destruct (CartContext.remote_call m) as [[request fallback]|]; [|reflexivity].
  destruct (CartContextFacts.roundTrip_spec fetch request fallback w)
    as (Hsent & _ & Hstate).
  split; [exact Hsent|]. rewrite Hstate.
  destruct (fst (fetch (CartContext.remote w) request)); simpl; auto.
Qed.

(** C9. Adding a quantity of zero or less through the cart context does
    nothing at all: no request leaves the client, and the cached cart, the
    loading flag and the error are what they were. *)
Theorem addToCart_nonpositive_noop
    (Remote : Type)
    (fetch : Remote -> cartApi.Request -> Settled Cart.t * Remote)
    (product : Product.t) (q : Z) (w : @CartContext.World Remote) :
  (q <= 0)%Z ->
  CartContext.addToCart fetch product q w = (tt, w).
Proof.
  intros Hq. unfold CartContext.addToCart.
  apply Z.leb_le in Hq. rewrite Hq. reflexivity.
Qed.

Lemma addToCart_nonpositive_noop_witness :
  (0 <= 0)%Z
  /\ CartContext.addToCart Samples.refusing Samples.houseBlend 0 Samples.freshWorld
     = (tt, Samples.freshWorld).
Proof.
  split; [lia|].
  apply (addToCart_nonpositive_noop unit Samples.refusing Samples.houseBlend 0
           Samples.freshWorld).
  lia.
Defined.

(** With a positive quantity the same endpoint's refusal does reach the
    cache, as an error message. *)
Example addToCart_positive_refused :
  CartContext.state
    (snd (CartContext.addToCart Samples.refusing Samples.houseBlend 1 Samples.freshWorld))
  = {| CartContext.cart := None;
       CartContext.loading := false;
       CartContext.error := Some (JS.lit "Quantity must be greater than 0") |}.
Proof. reflexivity. Qed.

(** ** The checkout page *)

Module CheckoutFacts.
Import JS Checkout.

(** One guarded assignment to [newErrors] leaves it empty only if the guard
    was false and it was empty before. *)
Lemma guarded_insert_size (c : bool) (k : string) (v : jsstring)
    (m : gmap string jsstring) :
  Nat.eqb (size (if c then <[k := v]> m else m)) 0
  = negb c && Nat.eqb (size m) 0.
Proof.
  destruct c; simpl; [|reflexivity].
  apply Nat.eqb_neq. intros H. apply map_size_empty_inv in H.
  exact (insert_non_empty m k v H).
Qed.

(** [validateForm] as one boolean test. *)
Lemma validateForm_unfold (fd : FormData) :
  validateForm fd =
  negb (truthy (zip fd) && negb (test zip_pattern (zip fd)))
  && (negb (truthy (email fd) && negb (test email_pattern (email fd)))
  && (negb (negb (truthy (securityCode fd)))
  && (negb (negb (truthy (expiryDate fd)))
  && (negb (negb (truthy (cardholderName fd)))
  && (negb (negb (truthy (cardNumber fd)))
  && (negb (negb (truthy (zip fd)))
  && (negb (negb (truthy (state fd)))
  && (negb (negb (truthy (city fd)))
  && (negb (negb (truthy (street fd)))
  && (negb (negb (truthy (name fd)))
  && (negb (negb (truthy (email fd))) && true))))))))))).
Proof.
  unfold validateForm, newErrors. cbv zeta.
  rewrite !guarded_insert_size. reflexivity.
Qed.

Lemma validateForm_true_iff (fd : FormData) :
  validateForm fd = true <->
  (email fd <> [] /\ name fd <> [] /\ street fd <> [] /\ city fd <> []
   /\ state fd <> [] /\ zip fd <> [] /\ cardNumber fd <> []
   /\ cardholderName fd <> [] /\ expiryDate fd <> [] /\ securityCode fd <> []
   /\ Matches email_pattern (email fd)
   /\ Matches zip_pattern (zip fd)).
Proof.
  rewrite validateForm_unfold.
  rewrite !andb_true_iff, !negb_involutive, !JSFacts.truthy_true.
  rewrite <- !JSFacts.test_spec.
  split.
  - intros (Hz & He & Hsc & Hex & Hch & Hcn & Hzip & Hst & Hci & Hstr & Hn & Hem & _).
    apply JSFacts.truthy_true in Hem, Hzip.
    rewrite Hzip in Hz. rewrite Hem in He. simpl in Hz, He.
    apply negb_true_iff, negb_false_iff in Hz.
    apply negb_true_iff, negb_false_iff in He.
    apply JSFacts.truthy_true in Hem, Hzip. tauto.
  - intros (Hem & Hn & Hstr & Hci & Hst & Hzip & Hcn & Hch & Hex & Hsc & He & Hz).
    rewrite He, Hz, !andb_false_r. simpl. tauto.
Qed.

Lemma validateForm_false_iff (fd : FormData) :
  validateForm fd = false <-> fieldProblem fd.
Proof.
  unfold fieldProblem. split.
  - intros Hv.
    destruct (email fd) as [|e0 e] eqn:E1; [tauto|].
    destruct (name fd) eqn:E2; [tauto|].
    destruct (street fd) eqn:E3; [tauto|].
    destruct (city fd) eqn:E4; [tauto|].
    destruct (state fd) eqn:E5; [tauto|].
    destruct (zip fd) as [|z0 z] eqn:E6; [tauto|].
    destruct (cardNumber fd) eqn:E7; [tauto|].
    destruct (cardholderName fd) eqn:E8; [tauto|].
    destruct (expiryDate fd) eqn:E9; [tauto|].
    destruct (securityCode fd) eqn:E10; [tauto|].
    do 10 right.
    destruct (test email_pattern (e0 :: e)) eqn:Te;
      [|left; apply JSFacts.test_false; exact Te].
    destruct (test zip_pattern (z0 :: z)) eqn:Tz;
      [|right; apply JSFacts.test_false; exact Tz].
    exfalso. apply JSFacts.test_spec in Te, Tz.
    assert (Ht : validateForm fd = true).
    { apply validateForm_true_iff.
      rewrite E1, E2, E3, E4, E5, E6, E7, E8, E9, E10.
      repeat split; solve [discriminate | assumption]. }
    congruence.
  - intros Hp. destruct (validateForm fd) eqn:Hv; [|reflexivity].
    apply validateForm_true_iff in Hv. tauto.
Qed.

Lemma fieldProblem_dec (fd : FormData) : fieldProblem fd \/ ~ fieldProblem fd.
Proof.
  rewrite <- validateForm_false_iff. destruct (validateForm fd); auto.
Qed.

(** The form refuses exactly when there is something for it to display. *)
Lemma validateForm_false_errors (fd : FormData) :
  validateForm fd = false <-> newErrors fd <> ∅.
Proof.
  unfold validateForm. rewrite Nat.eqb_neq. split.
  - intros H E. rewrite E in H. apply H. apply map_size_empty.
  - intros H E. apply H. apply map_size_empty_inv. exact E.
Qed.

Section Submission.
Context {Remote : Type}.
Variable fetch : Remote -> ordersApi.Request -> Settled Order.t * Remote.

(** An empty cart stops the handler before it validates or sends anything. *)
Lemma handleSubmit_empty_cart (cart : option Cart.t) (fd : FormData) (remote : Remote) :
  cartIsEmpty cart = true ->
  handleSubmit fetch cart fd remote
  = ([preventDefault; alert (lit "Your cart is empty")], remote).
Proof. intros H. unfold handleSubmit. rewrite H. reflexivity. Qed.

Lemma handleSubmit_invalid (cart : option Cart.t) (fd : FormData) (remote : Remote) :
  cartIsEmpty cart = false -> validateForm fd = false ->
  handleSubmit fetch cart fd remote
  = ([preventDefault; setErrors (newErrors fd)], remote).
Proof. intros H1 H2. unfold handleSubmit. rewrite H1, H2. reflexivity. Qed.

Lemma handleSubmit_valid (cart : option Cart.t) (fd : FormData) (remote : Remote) :
  cartIsEmpty cart = false -> validateForm fd = true ->
  posted (fst (handleSubmit fetch cart fd remote))
  = [ordersApi.createOrder (customerInfo fd) (paymentInfo fd)]
  /\ snd (handleSubmit fetch cart fd remote)
     = snd (fetch remote (ordersApi.createOrder (customerInfo fd) (paymentInfo fd))).
Proof.
  intros H1 H2. unfold handleSubmit. rewrite H1, H2. simpl.
  destruct (fetch remote _) as [[order|reason] remote']; simpl; auto.
Qed.

(** Whatever the handler sends is the request built from the form. *)
Lemma handleSubmit_posted (cart : option Cart.t) (fd : FormData) (remote : Remote) :
  posted (fst (handleSubmit fetch cart fd remote))
  = if cartIsEmpty cart then []
    else if validateForm fd
         then [ordersApi.createOrder (customerInfo fd) (paymentInfo fd)]
         else [].
Proof.
  destruct (cartIsEmpty cart) eqn:H1.
  - rewrite handleSubmit_empty_cart by exact H1. reflexivity.
  - destruct (validateForm fd) eqn:H2.
    + apply handleSubmit_valid; assumption.
    + rewrite handleSubmit_invalid by assumption. reflexivity.
Qed.

End Submission.
End CheckoutFacts.

(** The checkout page renders its form, and with it the handler, only for
    a cart that holds an item. *)
Lemma rendered_form_has_items
    (state : CartContext.CartContextState) (summary : Pricing.Summary) :
  CartReads.CheckoutPage state = CartReads.CheckoutForm summary ->
  Checkout.cartIsEmpty (CartContext.cart state) = false.
Proof.
  unfold CartReads.CheckoutPage, Checkout.cartIsEmpty.
  destruct (CartContext.loading state); [discriminate|].
  destruct (CartContext.cart state) as [cart|]; [|discriminate].
  destruct (Nat.eqb (length (Cart.items cart)) 0); [discriminate | reflexivity].
Qed.

(** C8. [validateForm] returns false exactly when a required field
    (email, name, street, city, state, zip, card number, cardholder name,
    expiry date, security code) is empty, or the email does not match
    [/^[^\s@]+@[^\s@]+\.[^\s@]+$/], or the ZIP code does not match
    [/^\d{5}(-\d{4})?$/].  Submitting the checkout form, which the page
    renders together with its handler for the cart of that render, fails
    at validation in exactly these cases: the errors are displayed and
    nothing is sent.  Otherwise the order request is sent. *)
Theorem checkout_validation_exactly
    (Remote : Type)
    (fetch : Remote -> ordersApi.Request -> Settled Order.t * Remote)
    (state : CartContext.CartContextState) (summary : Pricing.Summary)
    (fd : Checkout.FormData) (remote : Remote) :
  CartReads.CheckoutPage state = CartReads.CheckoutForm summary ->
  let result := Checkout.handleSubmit fetch (CartContext.cart state) fd remote in
  (Checkout.validateForm fd = false <-> Checkout.fieldProblem fd)
  /\ (Checkout.fieldProblem fd ->
      Checkout.newErrors fd <> ∅
      /\ result
         = ([Checkout.preventDefault; Checkout.setErrors (Checkout.newErrors fd)],
            remote))
  /\ (~ Checkout.fieldProblem fd ->
      Checkout.posted (fst result)
      = [ordersApi.createOrder (Checkout.customerInfo fd) (Checkout.paymentInfo fd)]).
Proof.
  intros Hview. cbv zeta.
  pose proof (rendered_form_has_items state summary Hview) as Hcart.
  split; [apply CheckoutFacts.validateForm_false_iff|]. split.
  - intros Hp. apply CheckoutFacts.validateForm_false_iff in Hp. split.
    + apply CheckoutFacts.validateForm_false_errors. exact Hp.
    + apply CheckoutFacts.handleSubmit_invalid; assumption.
  - intros Hp. apply CheckoutFacts.handleSubmit_valid; [exact Hcart|].
    destruct (Checkout.validateForm fd) eqn:Hv; [reflexivity|].
    apply CheckoutFacts.validateForm_false_iff in Hv. contradiction.
Qed.

Lemma checkout_validation_exactly_witness :
  CartReads.CheckoutPage (CartContext.mkState (Some Samples.twoBags) false None)
  = CartReads.CheckoutForm (Pricing.OrderSummary 37.98)
  /\ Checkout.fieldProblem Samples.shortZip
  /\ Checkout.handleSubmit Samples.accepting (Some Samples.twoBags) Samples.shortZip tt
     = ([Checkout.preventDefault;
         Checkout.setErrors (Checkout.newErrors Samples.shortZip)], tt)
  /\ ~ Checkout.fieldProblem Samples.filledForm
  /\ Checkout.posted
       (fst (Checkout.handleSubmit Samples.accepting (Some Samples.twoBags)
               Samples.filledForm tt))
     = [ordersApi.createOrder (Checkout.customerInfo Samples.filledForm)
          (Checkout.paymentInfo Samples.filledForm)].
Proof.
  pose proof (checkout_validation_exactly unit Samples.accepting
                (CartContext.mkState (Some Samples.twoBags) false None)
                (Pricing.OrderSummary 37.98) Samples.shortZip tt eq_refl)
    as (Hiff1 & Hstop & _).
  pose proof (checkout_validation_exactly unit Samples.accepting
                (CartContext.mkState (Some Samples.twoBags) false None)
                (Pricing.OrderSummary 37.98) Samples.filledForm tt eq_refl)
    as (Hiff2 & _ & Hsend).
  assert (Hbad : Checkout.fieldProblem Samples.shortZip)
    by (apply Hiff1; vm_compute; reflexivity).
  assert (Hok : ~ Checkout.fieldProblem Samples.filledForm).
  { intros Hp. apply Hiff2 in Hp. vm_compute in Hp. discriminate Hp. }
  split; [reflexivity|]. split; [exact Hbad|].
  split; [exact (proj2 (Hstop Hbad))|]. split; [exact Hok | exact (Hsend Hok)].
Defined.

(** The last four code units are a suffix of the card number, of length at
    most four. *)
Lemma slice_last_suffix (n : nat) (s : JS.jsstring) :
  length (JS.slice_last n s) = Nat.min n (length s)
  /\ exists front, s = front ++ JS.slice_last n s.
Proof.
  unfold JS.slice_last. split.
  - rewrite length_skipn. lia.
  - exists (firstn (length s - n) s). symmetry. apply firstn_skipn.
Qed.

(** C10. The order request that checkout builds carries, as payment
    information, only the literal method [credit_card] and the last four
    characters of the card number; two forms that agree on every field but
    the card-number characters before the last four, the expiry date and the
    security code lead to the same request body, and that body is all the
    handler ever sends. *)
Theorem payment_details_stay_in_browser
    (Remote : Type)
    (fetch : Remote -> ordersApi.Request -> Settled Order.t * Remote) :
  (forall fd : Checkout.FormData,
      Checkout.paymentInfo fd
      = {| PaymentInfo.method := JS.lit "credit_card";
           PaymentInfo.last_four := JS.slice_last 4 (Checkout.cardNumber fd) |})
  /\ (forall (cart : option Cart.t) (fd : Checkout.FormData) (remote : Remote)
             (request : ordersApi.Request),
         In request (Checkout.posted (fst (Checkout.handleSubmit fetch cart fd remote))) ->
         request = ordersApi.createOrder (Checkout.customerInfo fd) (Checkout.paymentInfo fd))
  /\ (forall fd1 fd2 : Checkout.FormData,
         Checkout.email fd1 = Checkout.email fd2 ->
         Checkout.phone fd1 = Checkout.phone fd2 ->
         Checkout.name fd1 = Checkout.name fd2 ->
         Checkout.street fd1 = Checkout.street fd2 ->
         Checkout.city fd1 = Checkout.city fd2 ->
         Checkout.state fd1 = Checkout.state fd2 ->
         Checkout.zip fd1 = Checkout.zip fd2 ->
         Checkout.cardholderName fd1 = Checkout.cardholderName fd2 ->
         Checkout.billingSameAsShipping fd1 = Checkout.billingSameAsShipping fd2 ->
         JS.slice_last 4 (Checkout.cardNumber fd1)
         = JS.slice_last 4 (Checkout.cardNumber fd2) ->
         ordersApi.createOrder (Checkout.customerInfo fd1) (Checkout.paymentInfo fd1)
         = ordersApi.createOrder (Checkout.customerInfo fd2) (Checkout.paymentInfo fd2)).
Proof.
  split; [reflexivity|]. split.
  - intros cart fd remote request Hin.
    rewrite CheckoutFacts.handleSubmit_posted in Hin.
    destruct (Checkout.cartIsEmpty cart); [destruct Hin|].
    destruct (Checkout.validateForm fd); [|destruct Hin].
    destruct Hin as [<-|[]]. reflexivity.
  - intros fd1 fd2 He Hp Hn Hs Hc Hst Hz _ _ Hl.
    unfold Checkout.customerInfo, Checkout.paymentInfo.
    rewrite He, Hp, Hn, Hs, Hc, Hst, Hz, Hl. reflexivity.
Qed.

Lemma payment_details_stay_in_browser_witness :
  Checkout.cardNumber Samples.filledForm <> Checkout.cardNumber Samples.otherCard
  /\ Checkout.expiryDate Samples.filledForm <> Checkout.expiryDate Samples.otherCard
  /\ Checkout.securityCode Samples.filledForm <> Checkout.securityCode Samples.otherCard
  /\ ordersApi.createOrder (Checkout.customerInfo Samples.filledForm)
       (Checkout.paymentInfo Samples.filledForm)
     = ordersApi.createOrder (Checkout.customerInfo Samples.otherCard)
         (Checkout.paymentInfo Samples.otherCard).
Proof.
  repeat (split; [vm_compute; discriminate|]).
  apply (proj2 (proj2 (payment_details_stay_in_browser unit Samples.accepting)));
    reflexivity.
Defined.

(** ** The cart service *)

Module ServiceFacts.
Import Service.

Lemma getProduct_withCart (pid sid : string) (es : list CartEntry) (st : Store) :
  getProduct pid (withCart sid es st) = getProduct pid st.
Proof. reflexivity. Qed.

(** A snapshot reads the store's catalog only. *)
Lemma snapshot_withCart (sid0 sid : string) (es0 es : list CartEntry) (st : Store) :
  snapshot (withCart sid0 es0 st) sid es = snapshot st sid es.
Proof. reflexivity. Qed.

Lemma entriesOf_withCart (sid : string) (es : list CartEntry) (st : Store) :
  entriesOf sid (withCart sid es st) = es.
Proof. unfold entriesOf, withCart. simpl. by rewrite lookup_insert_eq. Qed.

Lemma entriesOf_withCart_ne (sid sid' : string) (es : list CartEntry) (st : Store) :
  sid <> sid' -> entriesOf sid' (withCart sid es st) = entriesOf sid' st.
Proof. intros H. unfold entriesOf, withCart. simpl. by rewrite lookup_insert_ne. Qed.

Lemma withCart_withCart (sid : string) (es1 es2 : list CartEntry) (st : Store) :
  withCart sid es2 (withCart sid es1 st) = withCart sid es2 st.
Proof. unfold withCart. simpl. by rewrite insert_insert_eq. Qed.

Lemma hasEntry_quantityOf (pid : string) (es : list CartEntry) :
  hasEntry pid es = true <-> is_Some (quantityOf pid es).
Proof.
  unfold hasEntry, quantityOf.
  induction es as [|e es IH]; simpl.
  - split; [discriminate | intros [? ?]; discriminate].
  - destruct (bool_decide (productId e = pid)); simpl; [|exact IH].
    split; eauto.
Qed.

Lemma hasEntry_false (pid : string) (es : list CartEntry) :
  hasEntry pid es = false <-> quantityOf pid es = None.
Proof.
  rewrite <- not_true_iff_false, hasEntry_quantityOf. split.
  - intros H. destruct (quantityOf pid es); [exfalso; eauto | reflexivity].
  - intros -> [? ?]. discriminate.
Qed.

Lemma quantityOf_updateEntry (f : Z -> Z) (pid : string) (es : list CartEntry) :
  quantityOf pid (updateEntry f pid es) = f <$> quantityOf pid es.
Proof.
  unfold quantityOf. induction es as [|e es IH]; simpl; [reflexivity|].
  destruct (bool_decide (productId e = pid)) eqn:E; simpl.
  - rewrite bool_decide_eq_true_2; reflexivity.
  - rewrite E. exact IH.
Qed.

Lemma quantityOf_updateEntry_ne (f : Z -> Z) (pid pid' : string) (es : list CartEntry) :
  pid' <> pid -> quantityOf pid' (updateEntry f pid es) = quantityOf pid' es.
Proof.
  intros Hne. unfold quantityOf. induction es as [|e es IH]; simpl; [reflexivity|].
  destruct (bool_decide (productId e = pid)) eqn:E; simpl.
  - apply bool_decide_eq_true in E.
    rewrite !bool_decide_eq_false_2; congruence.
  - destruct (bool_decide (productId e = pid')); simpl; [reflexivity | exact IH].
Qed.

(** Updating keeps every entry in its place. *)
Lemma updateEntry_ids (f : Z -> Z) (pid : string) (es : list CartEntry) :
  map productId (updateEntry f pid es) = map productId es.
Proof.
  induction es as [|e es IH]; simpl; [reflexivity|].
  destruct (bool_decide (productId e = pid)) eqn:E; simpl.
  - apply bool_decide_eq_true in E. congruence.
  - congruence.
Qed.

Lemma updateEntry_appended (f : Z -> Z) (pid : string) (q : Z) (es : list CartEntry) :
  quantityOf pid es = None ->
  updateEntry f pid (es ++ [mkEntry pid q]) = es ++ [mkEntry pid (f q)].
Proof.
  unfold quantityOf. induction es as [|e es IH]; simpl.
  - intros _. rewrite bool_decide_eq_true_2; reflexivity.
  - destruct (bool_decide (productId e = pid)); simpl; [discriminate|].
    intros H. rewrite IH; auto.
Qed.

Lemma hasEntry_appended (pid : string) (q : Z) (es : list CartEntry) :
  hasEntry pid (es ++ [mkEntry pid q]) = true.
Proof.
  unfold hasEntry. rewrite existsb_app. simpl.
  rewrite bool_decide_eq_true_2; [apply orb_true_iff; auto | reflexivity].
Qed.

(** How many entries a cart has for a product. *)
Lemma entries_for_appended (pid : string) (q : Z) (es : list CartEntry) :
  quantityOf pid es = None ->
  List.filter (fun e => bool_decide (productId e = pid)) (es ++ [mkEntry pid q])
  = [mkEntry pid q].
Proof.
  unfold quantityOf. rewrite List.filter_app. simpl.
  rewrite bool_decide_eq_true_2 by reflexivity.
  induction es as [|e es IH]; simpl; [reflexivity|].
  destruct (bool_decide (productId e = pid)); simpl; [discriminate | exact IH].
Qed.

Lemma quantityOf_removed (pid : string) (es : list CartEntry) :
  quantityOf pid (List.filter (fun e => negb (bool_decide (productId e = pid))) es) = None.
Proof.
  unfold quantityOf. induction es as [|e es IH]; simpl; [reflexivity|].
  destruct (bool_decide (productId e = pid)) eqn:E; simpl; [exact IH|].
  rewrite E. exact IH.
Qed.

Lemma quantityOf_removed_ne (pid pid' : string) (es : list CartEntry) :
  pid' <> pid ->
  quantityOf pid' (List.filter (fun e => negb (bool_decide (productId e = pid))) es)
  = quantityOf pid' es.
Proof.
  intros Hne. unfold quantityOf. induction es as [|e es IH]; simpl; [reflexivity|].
  destruct (bool_decide (productId e = pid)) eqn:E; simpl.
  - apply bool_decide_eq_true in E.
    rewrite bool_decide_eq_false_2 by congruence. exact IH.
  - destruct (bool_decide (productId e = pid')); simpl; [reflexivity | exact IH].
Qed.

(** Removing a product the cart does not hold changes no entry. *)
Lemma remove_absent (pid : string) (es : list CartEntry) :
  hasEntry pid es = false ->
  List.filter (fun e => negb (bool_decide (productId e = pid))) es = es.
Proof.
  unfold hasEntry. induction es as [|e es IH]; simpl; [reflexivity|].
  destruct (bool_decide (productId e = pid)); simpl; [discriminate|].
  intros H. rewrite IH; auto.
Qed.

Lemma remove_twice (pid : string) (es : list CartEntry) :
  let keep := fun e => negb (bool_decide (productId e = pid)) in
  List.filter keep (List.filter keep es) = List.filter keep es.
Proof.
  cbv zeta. induction es as [|e es IH]; simpl; [reflexivity|].
  destruct (bool_decide (productId e = pid)) eqn:E; simpl; [exact IH|].
  rewrite E. simpl. congruence.
Qed.

Lemma hasEntry_ids (pid : string) (es : list CartEntry) :
  hasEntry pid es = true <-> In pid (map productId es).
Proof.
  unfold hasEntry. rewrite existsb_exists, in_map_iff. split.
  - intros (e & He & Hp). apply bool_decide_eq_true in Hp. eauto.
  - intros (e & Hp & He). exists e. split; [exact He|].
    apply bool_decide_eq_true. exact Hp.
Qed.

Lemma removed_ids (pid : string) (es : list CartEntry) :
  map productId (List.filter (fun e => negb (bool_decide (productId e = pid))) es)
  = List.filter (fun p => negb (bool_decide (p = pid))) (map productId es).
Proof.
  induction es as [|e es IH]; simpl; [reflexivity|].
  destruct (bool_decide (productId e = pid)); simpl; congruence.
Qed.

Lemma known_withCart (sid : string) (es : list CartEntry) (st : Store) (pid : string) :
  known (withCart sid es st) pid <-> known st pid.
Proof. reflexivity. Qed.

(** Replacing one cart by a good one keeps the store well formed. *)
Lemma wellFormed_withCart (sid : string) (es : list CartEntry) (st : Store) :
  wellFormed st ->
  NoDup (map productId es) -> Forall (known st) (map productId es) ->
  wellFormed (withCart sid es st).
Proof.
  intros Hwf Hnd Hkn sid' es'. unfold withCart. simpl.
  destruct (decide (sid = sid')) as [->|Hne].
  - rewrite lookup_insert_eq. intros [= <-]. split; assumption.
  - rewrite lookup_insert_ne by exact Hne. apply Hwf.
Qed.

Lemma wellFormed_entriesOf (sid : string) (st : Store) :
  wellFormed st ->
  NoDup (map productId (entriesOf sid st))
  /\ Forall (known st) (map productId (entriesOf sid st)).
Proof.
  intros Hwf. unfold entriesOf.
  destruct (carts st !! sid) as [es|] eqn:E; simpl.
  - exact (Hwf sid es E).
  - split; constructor.
Qed.

Section Invariant.
Variable validCustomer : CustomerInfo -> bool.
Variable displayNumber : N -> string.

(** Every call keeps the carts well formed. *)
Lemma perform_wellFormed (c : Call) (st : Store) :
  wellFormed st -> wellFormed (perform validCustomer displayNumber c st).
Proof.
  intros Hwf.
  destruct c as [sid|sid pid q|sid pid q|sid pid|sid customer payment now]; simpl;
    destruct (wellFormed_entriesOf sid st Hwf) as [Hnd Hkn].
  - apply wellFormed_withCart; assumption.
  - unfold addItem.
    destruct (getProduct pid st) as [p|e] eqn:Hp; [|exact Hwf].
    destruct (q <=? 0)%Z; [exact Hwf|]. simpl.
    destruct (hasEntry pid (entriesOf sid st)) eqn:Hhas.
    + apply wellFormed_withCart; rewrite ?updateEntry_ids; assumption.
    + apply wellFormed_withCart; [exact Hwf| |]; rewrite map_app; simpl.
      * apply NoDup_app. split; [exact Hnd|]. split; [|apply NoDup_singleton].
        intros x Hx Hx'. apply list_elem_of_singleton in Hx'. subst x.
        apply list_elem_of_In, hasEntry_ids in Hx. congruence.
      * apply Forall_app. split; [exact Hkn|]. constructor; [|constructor].
        exists p. exact Hp.
  - unfold setQuantity.
    destruct (hasEntry pid (entriesOf sid st)); simpl; [|exact Hwf].
    destruct (q <=? 0)%Z; simpl.
    + apply wellFormed_withCart; [exact Hwf| |]; rewrite removed_ids.
      * apply NoDup_ListNoDup, List.NoDup_filter, NoDup_ListNoDup, Hnd.
      * apply Forall_forall. intros x Hx.
        apply list_elem_of_In, List.filter_In in Hx as [Hx _].
        rewrite Forall_forall in Hkn. apply Hkn, list_elem_of_In, Hx.
    + apply wellFormed_withCart; rewrite ?updateEntry_ids; assumption.
  - apply wellFormed_withCart; [exact Hwf| |]; rewrite removed_ids.
    + apply NoDup_ListNoDup, List.NoDup_filter, NoDup_ListNoDup, Hnd.
    + apply Forall_forall. intros x Hx.
      apply list_elem_of_In, List.filter_In in Hx as [Hx _].
      rewrite Forall_forall in Hkn. apply Hkn, list_elem_of_In, Hx.
  - unfold createOrder.
    destruct (entriesOf sid st); [exact Hwf|].
    destruct (validCustomer customer); simpl; exact Hwf.
Qed.

(** A service that starts without carts stays well formed whatever it is
    asked to do. *)
Lemma reachable_wellFormed (cs : list Call) (st : Store) :
  carts st = ∅ -> wellFormed (performAll validCustomer displayNumber cs st).
Proof.
  intros Hempty.
  assert (Hwf : wellFormed st).
  { intros sid es. rewrite Hempty, lookup_empty. discriminate. }
  clear Hempty. revert st Hwf. unfold performAll.
  induction cs as [|c cs IH]; intros st Hwf; simpl; [exact Hwf|].
  apply IH, perform_wellFormed, Hwf.
Qed.

End Invariant.

(** In a well-formed store a product found in a cart is a known product. *)
Lemma present_known (sid pid : string) (st : Store) :
  wellFormed st -> hasEntry pid (entriesOf sid st) = true -> known st pid.
Proof.
  intros Hwf Hhas. destruct (wellFormed_entriesOf sid st Hwf) as [_ Hkn].
  rewrite Forall_forall in Hkn. apply Hkn, list_elem_of_In, hasEntry_ids, Hhas.
Qed.

End ServiceFacts.

(** C2. For a known product and a positive quantity, [addItem] succeeds; if
    the session's cart already has an entry for the product, that entry's
    quantity grows by the quantity added, no entry is added and the other
    entries keep their quantities; if it has none, a new entry is appended
    at the end.  Hence two calls with quantities [q] and [q2] on a cart
    without the product leave exactly one entry for it, of quantity
    [q + q2]. *)
Theorem addItem_increments_or_appends
    (st : Service.Store) (sid pid : string) (q : Z) (prod : Service.Product) :
  Service.getProduct pid st = Service.Ok prod ->
  (0 < q)%Z ->
  let es := Service.entriesOf sid st in
  let st' := snd (Service.addItem sid pid q st) in
  let es' := Service.entriesOf sid st' in
  fst (Service.addItem sid pid q st) = Service.Ok (Service.snapshot st sid es')
  /\ match Service.quantityOf pid es with
     | Some q0 =>
         Service.quantityOf pid es' = Some (q0 + q)%Z
         /\ map Service.productId es' = map Service.productId es
         /\ (forall other, other <> pid ->
               Service.quantityOf other es' = Service.quantityOf other es)
     | None =>
         es' = es ++ [Service.mkEntry pid q]
         /\ forall q2, (0 < q2)%Z ->
              let es'' := Service.entriesOf sid (snd (Service.addItem sid pid q2 st')) in
              es'' = es ++ [Service.mkEntry pid (q + q2)]
              /\ List.filter (fun e => bool_decide (Service.productId e = pid)) es''
                 = [Service.mkEntry pid (q + q2)]
     end.
Proof.
  intros Hprod Hq. cbv zeta.
  assert (Hadd : forall q1 s, (0 < q1)%Z -> Service.getProduct pid s = Service.Ok prod ->
            Service.addItem sid pid q1 s
            = let es1 := if Service.hasEntry pid (Service.entriesOf sid s)
                         then Service.updateEntry (fun old => (old + q1)%Z) pid
                                (Service.entriesOf sid s)
                         else Service.entriesOf sid s ++ [Service.mkEntry pid q1] in
              (Service.Ok (Service.snapshot s sid es1), Service.withCart sid es1 s)).
  { intros q1 s Hq1 Hs. unfold Service.addItem. rewrite Hs.
    destruct (q1 <=? 0)%Z eqn:E; [apply Z.leb_le in E; lia | reflexivity]. }
  rewrite (Hadd q st Hq Hprod). cbv zeta. simpl fst. simpl snd.
  rewrite ServiceFacts.entriesOf_withCart. split; [reflexivity|].
  destruct (Service.quantityOf pid (Service.entriesOf sid st)) as [q0|] eqn:Hq0.
  - assert (Hhas : Service.hasEntry pid (Service.entriesOf sid st) = true).
    { apply ServiceFacts.hasEntry_quantityOf. rewrite Hq0. eauto. }
    rewrite Hhas. split; [|split].
    + rewrite ServiceFacts.quantityOf_updateEntry, Hq0. reflexivity.
    + apply ServiceFacts.updateEntry_ids.
    + intros other Hne. apply ServiceFacts.quantityOf_updateEntry_ne. exact Hne.
  - assert (Hhas : Service.hasEntry pid (Service.entriesOf sid st) = false).
    { apply ServiceFacts.hasEntry_false. exact Hq0. }
    rewrite Hhas. split; [reflexivity|].
    intros q2 Hq2.
    rewrite (Hadd q2 (Service.withCart sid _ st) Hq2 Hprod). cbv zeta. simpl snd.
    rewrite !ServiceFacts.entriesOf_withCart.
    rewrite ServiceFacts.hasEntry_appended.
    rewrite ServiceFacts.updateEntry_appended by exact Hq0.
    split; [reflexivity|].
    apply ServiceFacts.entries_for_appended. exact Hq0.
Qed.

Lemma addItem_increments_or_appends_witness :
  Service.getProduct "1" ServiceSamples.shopping = Service.Ok ServiceSamples.espresso
  /\ (0 < 3)%Z
  /\ Service.quantityOf "1"
       (Service.entriesOf "s1" (snd (Service.addItem "s1" "1" 3 ServiceSamples.shopping)))
     = Some 5%Z.
Proof.
  split; [reflexivity|]. split; [lia|].
  pose proof (addItem_increments_or_appends ServiceSamples.shopping "s1" "1" 3
                ServiceSamples.espresso eq_refl eq_refl) as [_ H].
  replace (Service.quantityOf "1" (Service.entriesOf "s1" ServiceSamples.shopping))
    with (Some 2%Z) in H by reflexivity.
  exact (proj1 H).
Defined.

(** C3. For a product that is in the session's cart, [setQuantity] with a
    quantity of zero or less is [removeItem], and the cart read afterwards
    has no entry for the product; with a quantity [q > 0] the entry's
    quantity becomes exactly [q], whatever it was, and nothing else in the
    cart changes.  The cart context does the same on its side: for a
    quantity of zero or less [updateQuantity] is [removeFromCart]. *)
Theorem setQuantity_removes_or_replaces
    (st : Service.Store) (sid pid : string) (q : Z) :
  Service.hasEntry pid (Service.entriesOf sid st) = true ->
  ((q <= 0)%Z ->
     Service.setQuantity sid pid q st = Service.removeItem sid pid st
     /\ Service.quantityOf pid
          (Service.entries
             (fst (Service.getCart sid (snd (Service.setQuantity sid pid q st)))))
        = None)
  /\ ((0 < q)%Z ->
      let es := Service.entriesOf sid st in
      let es' := Service.entriesOf sid (snd (Service.setQuantity sid pid q st)) in
      fst (Service.setQuantity sid pid q st) = Service.Ok (Service.snapshot st sid es')
      /\ Service.quantityOf pid es' = Some q
      /\ map Service.productId es' = map Service.productId es
      /\ (forall other, other <> pid ->
            Service.quantityOf other es' = Service.quantityOf other es))
  /\ (forall (Remote : Type)
             (fetch : Remote -> cartApi.Request -> Settled Cart.t * Remote)
             (productId : JS.jsstring) (w : @CartContext.World Remote),
        (q <= 0)%Z ->
        CartContext.updateQuantity fetch productId q w
        = CartContext.removeFromCart fetch productId w).
Proof.
  intros Hhas. split; [|split].
  - intros Hq. apply Z.leb_le in Hq.
    assert (E : Service.setQuantity sid pid q st = Service.removeItem sid pid st).
    { unfold Service.setQuantity. rewrite Hhas, Hq. reflexivity. }
    split; [exact E|]. rewrite E. unfold Service.removeItem, Service.getCart.
    simpl. rewrite ServiceFacts.entriesOf_withCart.
    apply ServiceFacts.quantityOf_removed.
  - intros Hq. cbv zeta.
    assert (E : Service.setQuantity sid pid q st
                = let es' := Service.updateEntry (fun _ => q) pid
                               (Service.entriesOf sid st) in
                  (Service.Ok (Service.snapshot st sid es'),
                   Service.withCart sid es' st)).
    { unfold Service.setQuantity. rewrite Hhas.
      destruct (q <=? 0)%Z eqn:E; [apply Z.leb_le in E; lia | reflexivity]. }
    rewrite E. cbv zeta. simpl fst. simpl snd.
    rewrite ServiceFacts.entriesOf_withCart.
    apply ServiceFacts.hasEntry_quantityOf in Hhas as [q0 Hq0].
    split; [reflexivity|]. split; [|split].
    + rewrite ServiceFacts.quantityOf_updateEntry, Hq0. reflexivity.
    + apply ServiceFacts.updateEntry_ids.
    + intros other Hne. apply ServiceFacts.quantityOf_updateEntry_ne. exact Hne.
  - intros Remote fetch productId w Hq. apply Z.leb_le in Hq.
    unfold CartContext.updateQuantity. rewrite Hq. reflexivity.
Qed.

Lemma setQuantity_removes_or_replaces_witness :
  Service.hasEntry "1" (Service.entriesOf "s1" ServiceSamples.shopping) = true
  /\ (0 < 7)%Z
  /\ Service.quantityOf "1"
       (Service.entriesOf "s1" (snd (Service.setQuantity "s1" "1" 7 ServiceSamples.shopping)))
     = Some 7%Z.
Proof.
  split; [reflexivity|]. split; [lia|].
  pose proof (setQuantity_removes_or_replaces ServiceSamples.shopping "s1" "1" 7
                eq_refl) as (_ & H & _).
  exact (proj1 (proj2 (H eq_refl))).
Defined.

Example setQuantity_zero_removes :
  Service.entriesOf "s1" (snd (Service.setQuantity "s1" "1" 0 ServiceSamples.shopping)) = [].
Proof. reflexivity. Qed.

Example setQuantity_absent_fails :
  fst (Service.setQuantity "s1" "2" 4 ServiceSamples.shopping)
  = Service.Fail Service.NotFound.
Proof. reflexivity. Qed.

(** C4. [removeItem] never fails, for any session and any product id; when
    the product is not in the cart it returns the cart's snapshot as it was
    and leaves the entries alone; calling it a second time gives the same
    answer and the same store as calling it once. *)
Theorem removeItem_never_fails_idempotent
    (st : Service.Store) (sid pid : string) :
  (exists cart, fst (Service.removeItem sid pid st) = Service.Ok cart)
  /\ (Service.hasEntry pid (Service.entriesOf sid st) = false ->
      fst (Service.removeItem sid pid st) = Service.Ok (fst (Service.getCart sid st))
      /\ Service.entriesOf sid (snd (Service.removeItem sid pid st))
         = Service.entriesOf sid st)
  /\ Service.removeItem sid pid (snd (Service.removeItem sid pid st))
     = Service.removeItem sid pid st.
Proof.
  split; [|split].
  - eexists. reflexivity.
  - intros Habs. unfold Service.removeItem, Service.getCart. simpl.
    rewrite ServiceFacts.entriesOf_withCart.
    rewrite ServiceFacts.remove_absent by exact Habs. auto.
  - unfold Service.removeItem. simpl snd.
    rewrite ServiceFacts.entriesOf_withCart, ServiceFacts.withCart_withCart.
    rewrite ServiceFacts.snapshot_withCart.
    pose proof (ServiceFacts.remove_twice pid (Service.entriesOf sid st)) as H.
    cbv zeta in H. rewrite H. reflexivity.
Qed.

Lemma removeItem_never_fails_idempotent_witness :
  Service.hasEntry "2" (Service.entriesOf "s1" ServiceSamples.shopping) = false
  /\ fst (Service.removeItem "s1" "2" ServiceSamples.shopping)
     = Service.Ok (fst (Service.getCart "s1" ServiceSamples.shopping)).
Proof.
  split; [reflexivity|].
  pose proof (removeItem_never_fails_idempotent ServiceSamples.shopping "s1" "2")
    as (_ & H & _).
  exact (proj1 (H eq_refl)).
Defined.

(** C5. When the session's cart has no entries, [createOrder] fails with
    [EmptyCart] and the order store is what it was: no order is recorded.
    The checkout page does not even send the request when the cached cart
    is empty. *)
Theorem createOrder_empty_cart
    (validCustomer : Service.CustomerInfo -> bool) (displayNumber : N -> string)
    (st : Service.Store) (sid : string)
    (customer : Service.CustomerInfo) (payment : Service.PaymentInfo) (now : N) :
  Service.entriesOf sid st = [] ->
  let result := Service.createOrder validCustomer displayNumber sid customer payment now st in
  fst result = Service.Fail Service.EmptyCart
  /\ Service.orders (snd result) = Service.orders st
  /\ snd result = st
  /\ (forall (Remote : Type)
             (fetch : Remote -> ordersApi.Request -> Settled Order.t * Remote)
             (cart : option Cart.t) (fd : Checkout.FormData) (remote : Remote),
        Checkout.cartIsEmpty cart = true ->
        Checkout.posted (fst (Checkout.handleSubmit fetch cart fd remote)) = []
        /\ snd (Checkout.handleSubmit fetch cart fd remote) = remote).
Proof.
  intros Hempty. cbv zeta. unfold Service.createOrder. rewrite Hempty.
  repeat split; try reflexivity;
    rewrite CheckoutFacts.handleSubmit_empty_cart by assumption; reflexivity.
Qed.

Lemma createOrder_empty_cart_witness :
  Service.entriesOf "s2" ServiceSamples.shopping = []
  /\ Service.createOrder (fun _ => true) (fun _ => "CS-1"%string) "s2"
       ServiceSamples.ada ServiceSamples.card 0 ServiceSamples.shopping
     = (Service.Fail Service.EmptyCart, ServiceSamples.shopping).
Proof.
  split; [reflexivity|].
  pose proof (createOrder_empty_cart (fun _ => true) (fun _ => "CS-1"%string)
                ServiceSamples.shopping "s2" ServiceSamples.ada ServiceSamples.card 0
                eq_refl) as (H1 & _ & H3 & _).
  cbv zeta in H1, H3.
  destruct (Service.createOrder _ _ _ _ _ _ _) as [r s]. simpl in H1, H3.
  rewrite H1, H3. reflexivity.
Defined.

(** With an item in the cart and an acceptable customer the order is
    recorded under the id it is returned with. *)
Example createOrder_records :
  let result := Service.createOrder (fun _ => true) (fun _ => "CS-1"%string) "s1"
                  ServiceSamples.ada ServiceSamples.card 0 ServiceSamples.shopping in
  match fst result with
  | Service.Ok order =>
      Service.getOrder (Service.orderId order) (snd result) = Service.Ok order
      /\ Service.orderSubtotal order = Q2Qc (1998 # 100)
      /\ Service.shipping order = Q2Qc (599 # 100)
      /\ Service.total order = (Service.orderSubtotal order + Service.shipping order
                                + Service.tax order)%Qc
  | Service.Fail _ => False
  end.
Proof. vm_compute. repeat split; apply Qc_is_canon; reflexivity. Qed.

(** ** The catalog service *)

(** C6. For every category filter and every valid page and page size,
    [listProducts] succeeds with at most [perPage] items, in fact at most 50
    since the page size is clamped to 50, every item being a catalog product
    that matches the category when one is given; the page size defaults to
    12 and the page to 1; a page past the last matching product is an empty
    slice, not an error. *)
Theorem listProducts_page_bounds
    (st : Service.Store) (filter : option string) (page perPage : option Z) :
  (1 <= default 1 page)%Z ->
  (1 <= default 12 perPage)%Z ->
  exists pg,
    Service.listProducts filter page perPage st = Service.Ok pg
    /\ Service.page pg = default 1%Z page
    /\ Service.perPage pg = Z.min (default 12%Z perPage) 50
    /\ (Z.of_nat (length (Service.items pg)) <= Service.perPage pg)%Z
    /\ (Service.perPage pg <= default 12 perPage)%Z
    /\ (Service.perPage pg <= 50)%Z
    /\ Service.items pg `sublist_of`
         List.filter (Service.inCategory filter) (Service.products st)
    /\ (forall p, In p (Service.items pg) ->
          In p (Service.products st)
          /\ forall c, filter = Some c -> Service.category p = c)
    /\ Service.pageTotal pg
       = length (List.filter (Service.inCategory filter) (Service.products st))
    /\ ((Z.of_nat (Service.pageTotal pg)
         <= (Service.page pg - 1) * Service.perPage pg)%Z ->
        Service.items pg = []).
Proof.
  intros Hpage Hper. unfold Service.listProducts.
  set (pg := default 1%Z page) in *.
  set (pp := Z.min (default 12%Z perPage) 50).
  assert (Hpp : (1 <= pp)%Z) by (unfold pp; lia).
  replace ((pg <? 1)%Z || (pp <? 1)%Z) with false
    by (symmetry; apply orb_false_iff; split; apply Z.ltb_ge; lia).
  set (matching := List.filter (Service.inCategory filter) (Service.products st)).
  eexists. split; [reflexivity|]. simpl.
  assert (Hsub : take (Z.to_nat pp) (drop (Z.to_nat ((pg - 1) * pp)) matching)
                 `sublist_of` matching).
  { etransitivity; [apply sublist_take | apply sublist_drop]. }
  assert (Hin : forall p,
             In p (take (Z.to_nat pp) (drop (Z.to_nat ((pg - 1) * pp)) matching)) ->
             In p (Service.products st) /\ Service.inCategory filter p = true).
  { intros p Hp. apply list_elem_of_In in Hp.
    apply (sublist_subseteq _ _ Hsub) in Hp. apply list_elem_of_In in Hp.
    unfold matching in Hp. apply List.filter_In in Hp. exact Hp. }
  split; [reflexivity|]. split; [reflexivity|].
  split; [rewrite length_take; lia|].
  split; [unfold pp; lia|]. split; [unfold pp; lia|].
  split; [exact Hsub|]. split; [|split; [reflexivity|]].
  - intros p Hp. destruct (Hin p Hp) as [Hprod Hcat].
    split; [exact Hprod|]. intros c ->. simpl in Hcat.
    apply bool_decide_eq_true in Hcat. exact Hcat.
  - intros Hpast. rewrite drop_ge; [apply take_nil|]. lia.
Qed.

Lemma listProducts_page_bounds_witness :
  (1 <= default 1 (Some 1))%Z
  /\ (1 <= default 12 (Some 100))%Z
  /\ exists pg,
       Service.listProducts (Some "beans"%string) (Some 1%Z) (Some 100%Z)
         ServiceSamples.started = Service.Ok pg
       /\ Service.perPage pg = 50%Z
       /\ (Z.of_nat (length (Service.items pg)) <= Service.perPage pg)%Z.
Proof.
  split; [simpl; lia|]. split; [simpl; lia|].
  destruct (listProducts_page_bounds ServiceSamples.started (Some "beans"%string)
              (Some 1%Z) (Some 100%Z)) as (pg & H1 & _ & H3 & H4 & _);
    [simpl; lia | simpl; lia |].
  exists pg. split; [exact H1|]. split; [exact H3 | exact H4].
Defined.

Example listProducts_defaults :
  match Service.listProducts None None None ServiceSamples.started with
  | Service.Ok pg =>
      Service.page pg = 1%Z /\ Service.perPage pg = 12%Z
      /\ Service.items pg = Service.products ServiceSamples.started
  | Service.Fail _ => False
  end.
Proof. repeat split. Qed.

Example listProducts_filtered :
  match Service.listProducts (Some "ground"%string) None None ServiceSamples.started with
  | Service.Ok pg => Service.items pg = [ServiceSamples.breakfast]
  | Service.Fail _ => False
  end.
Proof. reflexivity. Qed.

Example listProducts_past_the_end :
  match Service.listProducts None (Some 9%Z) (Some 2%Z) ServiceSamples.started with
  | Service.Ok pg => Service.items pg = [] /\ Service.pageTotal pg = 3
  | Service.Fail _ => False
  end.
Proof. repeat split. Qed.

(** ** Worked examples *)

Example addItem_unknown_product :
  Service.addItem "s1" "9" 1 ServiceSamples.shopping
  = (Service.Fail Service.NotFound, ServiceSamples.shopping).
Proof. reflexivity. Qed.

Example addItem_zero_quantity :
  Service.addItem "s1" "1" 0 ServiceSamples.shopping
  = (Service.Fail Service.InvalidQuantity, ServiceSamples.shopping).
Proof. reflexivity. Qed.

Example addItem_twice :
  Service.entriesOf "s9"
    (snd (Service.addItem "s9" "2" 4
            (snd (Service.addItem "s9" "2" 3 ServiceSamples.shopping))))
  = [Service.mkEntry "2" 7].
Proof. reflexivity. Qed.

Example getCart_unknown_session :
  fst (Service.getCart "nobody" ServiceSamples.shopping)
  = Service.mkCart "nobody" [] 0 (Q2Qc 0).
Proof. reflexivity. Qed.

(** Two bags at 9.99 and one at 14.50 come to 34.48. *)
Example subtotal_is_exact :
  Service.subtotal
    (Service.snapshot ServiceSamples.started "s1"
       [Service.mkEntry "1" 2; Service.mkEntry "2" 1])
  = Q2Qc (3448 # 100).
Proof. apply Qc_is_canon. reflexivity. Qed.

(** A refused update leaves the cart the context had and records why. *)
Example update_refused_keeps_cart :
  let before := CartContext.mkWorld
                  (CartContext.mkState (Some Samples.twoBags) false None) tt [] in
  let after := snd (CartContext.updateQuantity Samples.refusing (JS.lit "1") 3 before) in
  CartContext.cart (CartContext.state after) = Some Samples.twoBags
  /\ CartContext.error (CartContext.state after)
     = Some (JS.lit "Quantity must be greater than 0")
  /\ CartContext.sent after = [cartApi.updateCartItem (JS.lit "1") 3].
Proof. repeat split. Qed.

(** An empty cart: one alert, nothing validated, nothing sent. *)
Example submit_empty_cart :
  Checkout.handleSubmit Samples.accepting (Some Samples.noItems) Samples.filledForm tt
  = ([Checkout.preventDefault; Checkout.alert (JS.lit "Your cart is empty")], tt).
Proof. reflexivity. Qed.

(** A full cart and a clean form: the order goes out with the last four
    digits only, and the page moves on to the confirmation. *)
Example submit_order :
  fst (Checkout.handleSubmit Samples.accepting (Some Samples.twoBags) Samples.filledForm tt)
  = [ Checkout.preventDefault;
      Checkout.setErrors ∅;
      Checkout.setIsSubmitting true;
      Checkout.post
        (ordersApi.createOrder
           (Checkout.customerInfo Samples.filledForm)
           {| PaymentInfo.method := JS.lit "credit_card";
              PaymentInfo.last_four := JS.lit "1234" |});
      Checkout.routerPush (JS.lit "/order-confirmation/ord-1");
      Checkout.setIsSubmitting false ].
Proof. vm_compute. reflexivity. Qed.

(** A ZIP code one digit short: one error to display, nothing sent. *)
Example submit_short_zip :
  Checkout.handleSubmit Samples.accepting (Some Samples.twoBags) Samples.shortZip tt
  = ([ Checkout.preventDefault;
       Checkout.setErrors {[ "zip"%string := JS.lit "Please enter a valid ZIP code" ]} ],
     tt).
Proof. vm_compute. reflexivity. Qed.

(** * Part III. Further properties of the client code *)

(** ** Quantity selectors and the handlers behind them *)

Module SelectorFacts.

Lemma click_range (c : Click) (st : ProductDetailPage.State) :
  (1 <= ProductDetailPage.quantity st <= QuantitySelector.defaultMax)%Z ->
  (1 <= ProductDetailPage.quantity (ProductDetailPage.click c st)
     <= QuantitySelector.defaultMax)%Z.
Proof.
  unfold ProductDetailPage.click, QuantitySelector.handleDecrease,
    QuantitySelector.handleIncrease, QuantitySelector.defaultMax.
  intros H. destruct c.
  - destruct (ProductDetailPage.quantity st >? 1)%Z eqn:E; simpl; lia.
  - destruct (ProductDetailPage.quantity st <? 10)%Z eqn:E; simpl; lia.
Qed.

Lemma click_keeps_rest (c : Click) (st : ProductDetailPage.State) :
  ProductDetailPage.product (ProductDetailPage.click c st) = ProductDetailPage.product st
  /\ ProductDetailPage.isAddingToCart (ProductDetailPage.click c st)
     = ProductDetailPage.isAddingToCart st.
Proof.
  unfold ProductDetailPage.click.
  destruct c;
    [destruct (QuantitySelector.handleDecrease _) |
     destruct (QuantitySelector.handleIncrease _ _)]; simpl; auto.
Qed.

Lemma clicks_invariant (cs : list Click) (st : ProductDetailPage.State) :
  (1 <= ProductDetailPage.quantity st <= QuantitySelector.defaultMax)%Z ->
  let st' := foldl (fun s c => ProductDetailPage.click c s) st cs in
  (1 <= ProductDetailPage.quantity st' <= QuantitySelector.defaultMax)%Z
  /\ ProductDetailPage.product st' = ProductDetailPage.product st
  /\ ProductDetailPage.isAddingToCart st' = ProductDetailPage.isAddingToCart st.
Proof.
  cbv zeta. revert st. induction cs as [|c cs IH]; intros st H; simpl; [auto|].
  destruct (IH (ProductDetailPage.click c st) (click_range c st H)) as (Hq & Hp & Ha).
  destruct (click_keeps_rest c st) as [Hp' Ha'].
  split; [exact Hq|]. split; congruence.
Qed.

End SelectorFacts.

(** X1. On the product detail page the quantity starts at 1 and no sequence
    of clicks on [-] and [+] takes it out of the range 1..10. *)
Theorem detail_quantity_stays_in_range (p : Product.t) (cs : list Click) :
  let st := foldl (fun s c => ProductDetailPage.click c s) (ProductDetailPage.loaded p) cs in
  (1 <= ProductDetailPage.quantity st <= 10)%Z.
Proof.
  cbv zeta.
  apply (SelectorFacts.clicks_invariant cs (ProductDetailPage.loaded p)).
  simpl. unfold QuantitySelector.defaultMax. lia.
Qed.

(** X2. Whatever was clicked on the selector before, [Add to Cart] on a
    product that is in stock sends exactly one request, a [POST /cart] for
    that product with a quantity between 1 and 10; afterwards the quantity
    shown is 1 again and the button is free, whether the call succeeded or
    not. *)
Theorem detail_add_sends_one_post
    (Remote : Type)
    (fetch : Remote -> cartApi.Request -> Settled Cart.t * Remote)
    (p : Product.t) (cs : list Click) (w : @CartContext.World Remote) :
  Product.in_stock p = true ->
  let st := foldl (fun s c => ProductDetailPage.click c s) (ProductDetailPage.loaded p) cs in
  let result := ProductDetailPage.handleAddToCart fetch st w in
  (1 <= ProductDetailPage.quantity st <= 10)%Z
  /\ CartContext.sent (snd result)
     = CartContext.sent w
         ++ [cartApi.addToCart (Product.id p) (ProductDetailPage.quantity st)]
  /\ fst result = ProductDetailPage.loaded p.
Proof.
  intros Hstock. cbv zeta.
  destruct (SelectorFacts.clicks_invariant cs (ProductDetailPage.loaded p))
    as (Hq & Hp & Ha); [simpl; unfold QuantitySelector.defaultMax; lia|].
  unfold QuantitySelector.defaultMax in Hq. simpl in Hp, Ha.
  split; [exact Hq|].
  unfold ProductDetailPage.handleAddToCart. rewrite Hp, Ha, Hstock. simpl.
  split; [|reflexivity].
  pose proof (CartContextFacts.mutate_unfold fetch
                (CartContext.Add p (ProductDetailPage.quantity
                   (foldl (fun s c => ProductDetailPage.click c s)
                      (ProductDetailPage.loaded p) cs)))) as Hm.
  simpl in Hm. rewrite Hm.
  destruct (_ <=? 0)%Z eqn:E; [apply Z.leb_le in E; lia|].
  apply CartContextFacts.roundTrip_spec.
Qed.

Lemma detail_add_sends_one_post_witness :
  Product.in_stock Samples.houseBlend = true
  /\ CartContext.sent
       (snd (ProductDetailPage.handleAddToCart Samples.refusing
               (foldl (fun s c => ProductDetailPage.click c s)
                  (ProductDetailPage.loaded Samples.houseBlend) [Plus; Plus; Minus])
               Samples.freshWorld))
     = [cartApi.addToCart (JS.lit "1") 2].
Proof.
  split; [reflexivity|].
  exact (proj1 (proj2 (detail_add_sends_one_post unit Samples.refusing
                         Samples.houseBlend [Plus; Plus; Minus] Samples.freshWorld
                         eq_refl))).
Defined.

(** X3. A product that is out of stock is never sent to the cart: neither
    the product card nor the detail page sends anything or changes
    anything for it.  For a product in stock the card sends, unless an add
    is already under way, exactly one [POST /cart] with quantity 1. *)
Theorem out_of_stock_never_sent
    (Remote : Type)
    (fetch : Remote -> cartApi.Request -> Settled Cart.t * Remote)
    (p : Product.t) (busy : bool) (w : @CartContext.World Remote) :
  (Product.in_stock p = false ->
     ProductCard.handleAddToCart fetch p busy w = (busy, w)
     /\ forall st, ProductDetailPage.product st = Some p ->
          ProductDetailPage.handleAddToCart fetch st w = (st, w))
  /\ (Product.in_stock p = true ->
      CartContext.sent (snd (ProductCard.handleAddToCart fetch p busy w))
      = CartContext.sent w
          ++ (if busy then [] else [cartApi.addToCart (Product.id p) 1])).
Proof.
  split.
  - intros Hout. unfold ProductCard.handleAddToCart, ProductDetailPage.handleAddToCart.
    rewrite Hout, orb_true_r. split; [reflexivity|].
    intros st ->. rewrite Hout, orb_true_r. reflexivity.
  - intros Hin. unfold ProductCard.handleAddToCart. rewrite Hin.
    destruct busy; simpl; [symmetry; apply app_nil_r|].
    pose proof (CartContextFacts.mutate_unfold fetch (CartContext.Add p 1)) as Hm.
    simpl in Hm. rewrite Hm.
    apply CartContextFacts.roundTrip_spec.
Qed.

Lemma out_of_stock_never_sent_witness :
  Product.in_stock PageSamples.soldOut = false
  /\ ProductCard.handleAddToCart Samples.refusing PageSamples.soldOut false
       Samples.freshWorld
     = (false, Samples.freshWorld).
Proof.
  split; [reflexivity|].
  exact (proj1 (proj1 (out_of_stock_never_sent unit Samples.refusing PageSamples.soldOut
                         false Samples.freshWorld) eq_refl)).
Defined.



(** ** The provider's operations and the pages that read its state *)

(** X6. [refreshCart] sends exactly one [GET /cart].  If it succeeds the
    cached cart is the returned one and the error is cleared; if it fails
    the cached cart is kept and the error is the thrown error's message, or
    [Failed to load cart] for a thrown value that is no error.  Either way
    the loading flag ends up off. *)
Theorem refreshCart_settles
    (Remote : Type)
    (fetch : Remote -> cartApi.Request -> Settled Cart.t * Remote)
    (w : @CartContext.World Remote) :
  let w' := snd (CartContext.refreshCart fetch w) in
  CartContext.sent w' = CartContext.sent w ++ [cartApi.getCart]
  /\ CartContext.loading (CartContext.state w') = false
  /\ match fst (fetch (CartContext.remote w) cartApi.getCart) with
     | Resolved snapshot =>
         CartContext.cart (CartContext.state w') = Some snapshot
         /\ CartContext.error (CartContext.state w') = None
     | Rejected (ErrorObject message) =>
         CartContext.cart (CartContext.state w') = CartContext.cart (CartContext.state w)
         /\ CartContext.error (CartContext.state w') = Some message
     | Rejected OtherValue =>
         CartContext.cart (CartContext.state w') = CartContext.cart (CartContext.state w)
         /\ CartContext.error (CartContext.state w') = Some (JS.lit "Failed to load cart")
     end.
Proof.
  cbv zeta.
  destruct (CartContextFacts.roundTrip_spec fetch cartApi.getCart "Failed to load cart" w)
    as (Hsent & _ & Hstate).
  change (CartContext.roundTrip fetch cartApi.getCart "Failed to load cart")
    with (CartContext.refreshCart fetch) in Hsent, Hstate.
  split; [exact Hsent|]. rewrite Hstate.
  destruct (fst (fetch (CartContext.remote w) cartApi.getCart)) as [snapshot|[message|]];
    simpl; auto.
Qed.

(** X7. No mutation leaves the loading flag on: whenever [addToCart],
    [updateQuantity] or [removeFromCart] sends its request, the flag is off
    at the end, whichever way the call went and whatever the flag was
    before. *)
Theorem mutation_ends_not_loading
    (Remote : Type)
    (fetch : Remote -> cartApi.Request -> Settled Cart.t * Remote)
    (m : CartContext.Mutation) (w : @CartContext.World Remote) :
  CartContext.remote_call m <> None ->
  CartContext.loading (CartContext.state (snd (CartContext.mutate fetch m w))) = false.
Proof.
  intros Hcall. rewrite CartContextFacts.mutate_unfold.
  destruct (CartContext.remote_call m) as [[request fallback]|]; [|congruence].
  destruct (CartContextFacts.roundTrip_spec fetch request fallback w) as (_ & _ & Hstate).
  rewrite Hstate. destruct (fst (fetch (CartContext.remote w) request)); reflexivity.
Qed.

Lemma mutation_ends_not_loading_witness :
  CartContext.remote_call (CartContext.Remove (JS.lit "1")) <> None
  /\ CartContext.loading
       (CartContext.state
          (snd (CartContext.mutate Samples.refusing (CartContext.Remove (JS.lit "1"))
                  Samples.freshWorld)))
     = false.
Proof.
  assert (H : CartContext.remote_call (CartContext.Remove (JS.lit "1")) <> None)
    by discriminate.
  split; [exact H|].
  exact (mutation_ends_not_loading unit Samples.refusing
           (CartContext.Remove (JS.lit "1")) Samples.freshWorld H).
Defined.

(** X8. After a mutation whose call failed with a non-empty message the
    cart page shows the error screen with that message, although the cached
    cart is still there; after a mutation whose call succeeded it shows the
    returned cart, or the empty-cart screen if that cart has no items,
    whatever error was displayed before. *)
Theorem cart_page_after_mutation
    (Remote : Type)
    (fetch : Remote -> cartApi.Request -> Settled Cart.t * Remote)
    (m : CartContext.Mutation) (w : @CartContext.World Remote)
    (request : cartApi.Request) (fallback : string) :
  CartContext.remote_call m = Some (request, fallback) ->
  let state' := CartContext.state (snd (CartContext.mutate fetch m w)) in
  match fst (fetch (CartContext.remote w) request) with
  | Rejected reason =>
      errorMessage reason fallback <> [] ->
      CartReads.CartPage state' = CartReads.ErrorScreen (errorMessage reason fallback)
      /\ CartContext.cart state' = CartContext.cart (CartContext.state w)
  | Resolved snapshot =>
      CartReads.CartPage state'
      = match Cart.items snapshot with
        | [] => CartReads.EmptyCartScreen
        | _ :: _ =>
            CartReads.ItemsAndSummary (Cart.items snapshot)
              (Pricing.OrderSummary (Cart.subtotal snapshot))
        end
  end.
Proof.
  intros Hcall. cbv zeta. rewrite CartContextFacts.mutate_unfold, Hcall.
  destruct (CartContextFacts.roundTrip_spec fetch request fallback w) as (_ & _ & Hstate).
  rewrite Hstate.
  destruct (fst (fetch (CartContext.remote w) request)) as [snapshot|reason].
  - unfold CartReads.CartPage. simpl. destruct (Cart.items snapshot); reflexivity.
  - intros Hmsg. unfold CartReads.CartPage. simpl.
    destruct (errorMessage reason fallback); [congruence | auto].
Qed.

Lemma cart_page_after_mutation_witness :
  CartContext.remote_call (CartContext.Update (JS.lit "1") 3)
  = Some (cartApi.updateCartItem (JS.lit "1") 3, "Failed to update cart item"%string)
  /\ CartReads.CartPage
       (CartContext.state
          (snd (CartContext.mutate Samples.refusing (CartContext.Update (JS.lit "1") 3)
                  (CartContext.mkWorld
                     (CartContext.mkState (Some Samples.twoBags) false None) tt []))))
     = CartReads.ErrorScreen (JS.lit "Quantity must be greater than 0").
Proof.
  split; [reflexivity|].
  pose proof (cart_page_after_mutation unit Samples.refusing
                (CartContext.Update (JS.lit "1") 3)
                (CartContext.mkWorld
                   (CartContext.mkState (Some Samples.twoBags) false None) tt [])
                (cartApi.updateCartItem (JS.lit "1") 3) "Failed to update cart item"
                eq_refl) as H.
  simpl in H. apply H. discriminate.
Defined.

(** ** The free-shipping hint *)

Module FloatFacts.

Lemma SFcompare_opp (x y : SpecFloat.spec_float) :
  SpecFloat.SFcompare y x = option_map CompOpp (SpecFloat.SFcompare x y).
Proof.
  assert (Hpos : forall p q,
             PosDef.Pos.compare_cont Eq q p = CompOpp (PosDef.Pos.compare_cont Eq p q)).
  { intros p q. exact (eq_sym (Pos.compare_cont_antisym p q Eq)). }
  destruct x as [sx|sx| |sx mx ex], y as [sy|sy| |sy my ey]; simpl;
    try reflexivity;
    try (destruct sx; reflexivity); try (destruct sy; reflexivity);
    try (destruct sx, sy; reflexivity).
  destruct sx, sy; simpl; try reflexivity;
    rewrite (Z.compare_antisym ex ey); destruct (ex ?= ey)%Z; simpl;
    try reflexivity; rewrite (Hpos mx my); reflexivity.
Qed.

Lemma is_nan_false (x : float) :
  PrimFloat.is_nan x = false -> Prim2SF x <> SpecFloat.S754_nan.
Proof.
  unfold PrimFloat.is_nan. rewrite FloatAxioms.eqb_spec. intros H E.
  rewrite E in H. discriminate H.
Qed.

(** On numbers, [y <= x] is the negation of [x < y]. *)
Lemma leb_negb_ltb (x y : float) :
  PrimFloat.is_nan x = false -> PrimFloat.is_nan y = false ->
  PrimFloat.leb y x = negb (PrimFloat.ltb x y).
Proof.
  intros Hx Hy. apply is_nan_false in Hx, Hy.
  rewrite FloatAxioms.leb_spec, FloatAxioms.ltb_spec.
  unfold SpecFloat.SFleb, SpecFloat.SFltb. rewrite (SFcompare_opp (Prim2SF x) (Prim2SF y)).
  destruct (SpecFloat.SFcompare (Prim2SF x) (Prim2SF y)) as [[]|] eqn:Ec; try reflexivity.
  exfalso.
  destruct (Prim2SF x) as [sx|sx| |sx mx ex]; [| |congruence|];
    destruct (Prim2SF y) as [sy|sy| |sy my ey]; try congruence; discriminate Ec.
Qed.

End FloatFacts.

(** X9. On the cart page the hint to add more for free shipping is shown
    exactly when shipping is charged, for every subtotal that is a number;
    for a subtotal that is not a number shipping is charged and no hint is
    shown. *)
Theorem hint_iff_shipping_charged (subtotal : float) :
  (PrimFloat.is_nan subtotal = false ->
     (CartReads.freeShippingHint subtotal = true
      <-> Pricing.shipping (Pricing.OrderSummary subtotal) = 5.99%float)
     /\ (CartReads.freeShippingHint subtotal = false
         <-> Pricing.shipping (Pricing.OrderSummary subtotal) = 0%float))
  /\ (PrimFloat.is_nan subtotal = true ->
      CartReads.freeShippingHint subtotal = false
      /\ Pricing.shipping (Pricing.OrderSummary subtotal) = 5.99%float).
Proof.
  assert (Hne : 0%float <> 5.99%float).
  { intros E. apply (f_equal PrimFloat.is_zero) in E. vm_compute in E. discriminate E. }
  unfold CartReads.freeShippingHint, Pricing.OrderSummary. simpl. split.
  - intros Hnum.
    rewrite (FloatFacts.leb_negb_ltb subtotal 75 Hnum eq_refl).
    destruct (PrimFloat.ltb subtotal 75); simpl; split; split; congruence.
  - intros Hnan.
    assert (E : Prim2SF subtotal = SpecFloat.S754_nan).
    { unfold PrimFloat.is_nan in Hnan. rewrite FloatAxioms.eqb_spec in Hnan.
      destruct (Prim2SF subtotal) as [s|s| |s m e]; [| |reflexivity|]; exfalso.
      - discriminate Hnan.
      - destruct s; discriminate Hnan.
      - unfold SpecFloat.SFeqb, SpecFloat.SFcompare in Hnan.
        destruct s; rewrite Z.compare_refl, Pos.compare_cont_refl in Hnan;
          discriminate Hnan. }
    rewrite FloatAxioms.ltb_spec, FloatAxioms.leb_spec, E. split; reflexivity.
Qed.

Lemma hint_iff_shipping_charged_witness :
  PrimFloat.is_nan 50 = false
  /\ CartReads.freeShippingHint 50 = true
  /\ Pricing.shipping (Pricing.OrderSummary 50) = 5.99%float.
Proof.
  split; [reflexivity|].
  destruct (proj1 (hint_iff_shipping_charged 50) eq_refl) as [[H1 H2] _].
  split; [reflexivity|]. apply H1. reflexivity.
Defined.

(** ** The product listing: category counts and the filter *)

Module ProductsPageFacts.
Import ProductsPage.

(** How many products carry a category. *)
Local Abbreviation inCategory products k :=
  (length (List.filter (fun product => bool_decide (Product.category product = k)) products)).

Local Abbreviation step products :=
  (fun counts category =>
     assign (Category.id category) (inCategory products (Category.id category)) counts).

Lemma assign_lookup (key k : JS.jsstring) (value : nat) (counts : gmap JS.jsstring nat) :
  assign key value counts !! k
  = if bool_decide (key = k /\ key <> JS.lit "__proto__") then Some value
    else counts !! k.
Proof.
  unfold assign. destruct (bool_decide (key = JS.lit "__proto__")) eqn:Ep.
  - apply bool_decide_eq_true in Ep.
    rewrite bool_decide_eq_false_2; [reflexivity | tauto].
  - apply bool_decide_eq_false in Ep. destruct (decide (key = k)) as [->|Hne].
    + rewrite lookup_insert_eq, bool_decide_eq_true_2; auto.
    + rewrite lookup_insert_ne by exact Hne.
      rewrite bool_decide_eq_false_2; [reflexivity | tauto].
Qed.

Lemma counts_lookup (products : list Product.t) (categories : list Category.t)
    (acc : gmap JS.jsstring nat) (k : JS.jsstring) :
  foldl (step products) acc categories !! k
  = if bool_decide (k ∈ map Category.id categories /\ k <> JS.lit "__proto__")
    then Some (inCategory products k)
    else acc !! k.
Proof.
  revert acc. induction categories as [|c cs IH]; intros acc; cbn [foldl map].
  - rewrite bool_decide_eq_false_2; [reflexivity|]. intros [H _]. inversion H.
  - rewrite IH, assign_lookup.
    destruct (decide (k ∈ map Category.id cs /\ k <> JS.lit "__proto__")) as [H|H].
    + rewrite (bool_decide_eq_true_2 _ H).
      rewrite bool_decide_eq_true_2; [reflexivity|].
      split; [apply elem_of_cons; tauto | tauto].
    + rewrite (bool_decide_eq_false_2 _ H).
      destruct (decide (Category.id c = k /\ Category.id c <> JS.lit "__proto__"))
        as [[Hk H2]|H2].
      * rewrite bool_decide_eq_true_2 by (split; assumption). subst k.
        rewrite bool_decide_eq_true_2; [reflexivity|].
        split; [apply elem_of_cons; auto | exact H2].
      * rewrite (bool_decide_eq_false_2 _ H2).
        rewrite bool_decide_eq_false_2; [reflexivity|].
        intros [E Hp]. apply elem_of_cons in E as [E|E]; [subst k|]; tauto.
Qed.

Lemma filter_insert_length (products : list Product.t) (m : gmap JS.jsstring nat)
    (i : JS.jsstring) (x : nat) :
  m !! i = None ->
  length (List.filter
            (fun product => bool_decide (is_Some (<[i := x]> m !! Product.category product)))
            products)
  = length (List.filter
              (fun product => bool_decide (is_Some (m !! Product.category product)))
              products)
    + inCategory products i.
Proof.
  intros Hi. induction products as [|p ps IH]; [reflexivity|].
  cbn [List.filter].
  destruct (decide (Product.category p = i)) as [E|E].
  - rewrite (bool_decide_eq_true_2 _ E).
    rewrite bool_decide_eq_true_2 by (rewrite E, lookup_insert_eq; eauto).
    rewrite bool_decide_eq_false_2
      by (rewrite E, Hi; intros [? ?]; discriminate).
    cbn [length]. lia.
  - rewrite (bool_decide_eq_false_2 _ E).
    rewrite lookup_insert_ne by congruence.
    destruct (bool_decide (is_Some (m !! Product.category p))); cbn [length]; lia.
Qed.

(** The sum over a table of per-category counts is the number of products
    whose category has a row in the table. *)
Lemma allCount_counts (products : list Product.t) (counts : gmap JS.jsstring nat) :
  (forall k v, counts !! k = Some v -> v = inCategory products k) ->
  allCount counts
  = length (List.filter
              (fun product => bool_decide (is_Some (counts !! Product.category product)))
              products).
Proof.
  unfold allCount. induction counts as [|i x m Hi Hfold IH] using map_first_key_ind.
  - intros _. rewrite map_fold_empty.
    induction products as [|p ps IHp]; [reflexivity|]. cbn [List.filter].
    rewrite bool_decide_eq_false_2
      by (rewrite lookup_empty; intros [? ?]; discriminate).
    exact IHp.
  - intros Hall. rewrite map_fold_insert_first_key by assumption.
    rewrite filter_insert_length by exact Hi.
    rewrite IH.
    + rewrite (Hall i x) by apply lookup_insert_eq. reflexivity.
    + intros k v Hk. apply Hall. rewrite lookup_insert_ne; [exact Hk|].
      intros ->. congruence.
Qed.

Lemma filter_all (A : Type) (f : A -> bool) (l : list A) :
  Forall (fun a => f a = true) l -> List.filter f l = l.
Proof.
  induction 1 as [|a l Ha _ IH]; simpl; [reflexivity|]. rewrite Ha, IH. reflexivity.
Qed.

End ProductsPageFacts.

(** X10. The number on the [All] button is the number of products whose
    category is among the listed categories (a category listed twice is
    counted once, one named [__proto__] not at all); so it never exceeds
    the number of products that [All] displays, and equals it when every
    product's category is listed. *)
Theorem all_button_counts_listed
    (categories : list Category.t) (products : list Product.t) :
  let listed := fun product =>
    bool_decide (Product.category product ∈ map Category.id categories
                 /\ Product.category product <> JS.lit "__proto__") in
  let shown := ProductsPage.allCount (ProductsPage.getProductCounts categories products) in
  shown = length (List.filter listed products)
  /\ shown <= length (ProductsPage.filteredProducts products None)
  /\ (Forall (fun product => listed product = true) products ->
      shown = length (ProductsPage.filteredProducts products None)).
Proof.
  cbv zeta.
  assert (Hshown :
    ProductsPage.allCount (ProductsPage.getProductCounts categories products)
    = length (List.filter
                (fun product =>
                   bool_decide (Product.category product ∈ map Category.id categories
                                /\ Product.category product <> JS.lit "__proto__"))
                products)).
  { rewrite (ProductsPageFacts.allCount_counts products).
    - f_equal. apply List.filter_ext. intros p.
      unfold ProductsPage.getProductCounts.
      rewrite ProductsPageFacts.counts_lookup, lookup_empty.
      destruct (bool_decide (_ ∈ _ /\ _)) eqn:E.
      + apply bool_decide_eq_true_2. eauto.
      + apply bool_decide_eq_false_2. intros [? ?]. discriminate.
    - intros k v. unfold ProductsPage.getProductCounts.
      rewrite ProductsPageFacts.counts_lookup, lookup_empty.
      destruct (bool_decide _); [congruence | discriminate]. }
  rewrite Hshown. split; [reflexivity|]. simpl. split.
  - apply List.filter_length_le.
  - intros Hall. rewrite ProductsPageFacts.filter_all by exact Hall. reflexivity.
Qed.

Lemma all_button_counts_listed_witness :
  Forall (fun product =>
            bool_decide (Product.category product
                           ∈ map Category.id [PageSamples.beans; PageSamples.pods]
                         /\ Product.category product <> JS.lit "__proto__") = true)
    [Samples.houseBlend; PageSamples.soldOut]
  /\ ProductsPage.allCount
       (ProductsPage.getProductCounts [PageSamples.beans; PageSamples.pods]
          [Samples.houseBlend; PageSamples.soldOut])
     = 2.
Proof.
  assert (H : Forall (fun product =>
            bool_decide (Product.category product
                           ∈ map Category.id [PageSamples.beans; PageSamples.pods]
                         /\ Product.category product <> JS.lit "__proto__") = true)
    [Samples.houseBlend; PageSamples.soldOut]).
  { repeat constructor; apply bool_decide_eq_true_2;
      (split; [apply list_elem_of_In; left; reflexivity | vm_compute; discriminate]). }
  split; [exact H|].
  exact (proj2 (proj2 (all_button_counts_listed [PageSamples.beans; PageSamples.pods]
                         [Samples.houseBlend; PageSamples.soldOut])) H).
Defined.

(** X11. The number on a category's button is the number of products the
    page displays once that category is selected, provided the category's
    id is not the empty string (which selects nothing and displays every
    product) and is not [__proto__]. *)
Theorem category_button_matches_filter
    (categories : list Category.t) (products : list Product.t) (c : Category.t) :
  In c categories ->
  Category.id c <> [] ->
  Category.id c <> JS.lit "__proto__" ->
  ProductsPage.getProductCounts categories products !! Category.id c
  = Some (length (ProductsPage.filteredProducts products (Some (Category.id c)))).
Proof.
  intros Hin Hne Hproto. unfold ProductsPage.getProductCounts.
  rewrite ProductsPageFacts.counts_lookup.
  rewrite bool_decide_eq_true_2
    by (split; [apply list_elem_of_In, in_map; exact Hin | exact Hproto]).
  unfold ProductsPage.filteredProducts.
  destruct (Category.id c) as [|u us]; [congruence | reflexivity].
Qed.

Lemma category_button_matches_filter_witness :
  In PageSamples.beans [PageSamples.beans; PageSamples.pods]
  /\ Category.id PageSamples.beans <> []
  /\ Category.id PageSamples.beans <> JS.lit "__proto__"
  /\ ProductsPage.getProductCounts [PageSamples.beans; PageSamples.pods]
       [Samples.houseBlend; PageSamples.soldOut] !! Category.id PageSamples.beans
     = Some 2.
Proof.
  assert (H1 : In PageSamples.beans [PageSamples.beans; PageSamples.pods])
    by (left; reflexivity).
  assert (H2 : Category.id PageSamples.beans <> []) by (vm_compute; discriminate).
  assert (H3 : Category.id PageSamples.beans <> JS.lit "__proto__")
    by (vm_compute; discriminate).
  split; [exact H1|]. split; [exact H2|]. split; [exact H3|].
  exact (category_button_matches_filter [PageSamples.beans; PageSamples.pods]
           [Samples.houseBlend; PageSamples.soldOut] PageSamples.beans H1 H2 H3).
Defined.

(** An empty category id on a button: the count is of the products without
    category, the display is of all products. *)
Example empty_category_id_differs :
  let nameless := Category.mk [] (JS.lit "Other") [] 9 [] in
  ProductsPage.getProductCounts [nameless] [Samples.houseBlend] !! Category.id nameless
  = Some 0
  /\ ProductsPage.filteredProducts [Samples.houseBlend] (Some (Category.id nameless))
     = [Samples.houseBlend].
Proof. split; reflexivity. Qed.

(** ** What the form's two patterns accept *)

Module PatternFacts.
Import JS.

(** A run free of white space and [@] has no [@] and no white space. *)
Lemma run_clean (s : jsstring) :
  forallb not_space_at s = true ->
  List.filter (N.eqb 64) s = [] /\ forallb (fun c => negb (is_space c)) s = true.
Proof.
  induction s as [|c s IH]; [auto|]. cbn [forallb List.filter].
  rewrite andb_true_iff. intros [Hc Hs]. destruct (IH Hs) as [IH1 IH2].
  unfold not_space_at in Hc. apply negb_true_iff, orb_false_iff in Hc as [Hsp Hat].
  rewrite Hsp, IH2. split; [|reflexivity].
  destruct (N.eqb 64 c) eqn:E; [|exact IH1].
  apply N.eqb_eq in E. subst c. discriminate Hat.
Qed.

Lemma digits_take_drop (s : jsstring) :
  length s = 10 -> s !! 5 = Some 45%N ->
  s = take 5 s ++ [45%N] ++ drop 6 s
  /\ length (take 5 s) = 5 /\ length (drop 6 s) = 4.
Proof.
  intros Hl H5. split; [|split].
  - rewrite <- (take_drop 5 s) at 1. f_equal. apply drop_S. exact H5.
  - rewrite length_take. lia.
  - rewrite length_drop. lia.
Qed.

End PatternFacts.

(** X12. The e-mail test of the checkout form accepts exactly the strings
    of the shape [user@host.tld] in which [user], [host] and [tld] are
    non-empty and contain neither white space nor [@] ([host] and [tld] may
    contain further dots). *)
Theorem email_test_accepts_exactly (s : JS.jsstring) :
  JS.test JS.email_pattern s = true <->
  exists user host tld,
    s = user ++ [64%N] ++ host ++ [46%N] ++ tld
    /\ (user <> [] /\ forallb JS.not_space_at user = true)
    /\ (host <> [] /\ forallb JS.not_space_at host = true)
    /\ (tld <> [] /\ forallb JS.not_space_at tld = true).
Proof.
  rewrite JSFacts.test_spec. apply JSFacts.email_pattern_spec.
Qed.

(** X13. An address the form accepts contains exactly one [@] and no white
    space at all, and has at least five characters. *)
Theorem accepted_email_has_one_at (s : JS.jsstring) :
  JS.test JS.email_pattern s = true ->
  length (List.filter (N.eqb 64) s) = 1
  /\ forallb (fun c => negb (JS.is_space c)) s = true
  /\ 5 <= length s.
Proof.
  intros H. apply JSFacts.test_spec, JSFacts.email_pattern_spec in H
    as (user & host & tld & -> & [Hu1 Hu2] & [Hh1 Hh2] & [Ht1 Ht2]).
  apply PatternFacts.run_clean in Hu2 as [Hu2 Hu3], Hh2 as [Hh2 Hh3], Ht2 as [Ht2 Ht3].
  split; [|split].
  - rewrite !List.filter_app, Hu2, Hh2, Ht2. reflexivity.
  - rewrite !forallb_app, Hu3, Hh3, Ht3. reflexivity.
  - rewrite !length_app. simpl.
    destruct user; [congruence|]. destruct host; [congruence|].
    destruct tld; [congruence|]. simpl. lia.
Qed.

Lemma accepted_email_has_one_at_witness :
  JS.test JS.email_pattern (JS.lit "ada@example.com") = true
  /\ length (List.filter (N.eqb 64) (JS.lit "ada@example.com")) = 1.
Proof.
  split; [reflexivity|].
  exact (proj1 (accepted_email_has_one_at (JS.lit "ada@example.com") eq_refl)).
Defined.

(** X14. The ZIP test of the checkout form accepts exactly five digits, or
    five digits, a hyphen and four digits; nothing before, between or
    after. *)
Theorem zip_test_accepts_exactly (s : JS.jsstring) :
  JS.test JS.zip_pattern s = true <->
  (length s = 5 /\ forallb JS.is_digit s = true)
  \/ (length s = 10
      /\ forallb JS.is_digit (take 5 s) = true
      /\ s !! 5 = Some 45%N
      /\ forallb JS.is_digit (drop 6 s) = true).
Proof.
  rewrite JSFacts.test_spec, JSFacts.zip_pattern_spec. split.
  - intros (five & rest & -> & [H5 Hd] & [->|(four & -> & H4 & Hd4)]).
    + left. rewrite app_nil_r. auto.
    + right. rewrite !length_app, H5, H4. split; [reflexivity|].
      rewrite take_app_length' by (symmetry; exact H5). split; [exact Hd|]. split.
      * rewrite lookup_app_r by lia. rewrite H5. reflexivity.
      * replace 6 with (length five + 1) by lia.
        rewrite <- drop_drop, drop_app_length. exact Hd4.
  - intros [[Hl Hd]|(Hl & Hd & H5 & Hd4)].
    + exists s, []. rewrite app_nil_r. auto.
    + destruct (PatternFacts.digits_take_drop s Hl H5) as (E & L5 & L4).
      exists (take 5 s), ([45%N] ++ drop 6 s). split; [exact E|].
      split; [auto|]. right. exists (drop 6 s). auto.
Qed.

(** ** What the form says about each field *)

Module MessageFacts.
Import JS Checkout.

Lemma guarded_lookup (c : bool) (k k' : string) (v : jsstring)
    (m : gmap string jsstring) :
  (if c then <[k := v]> m else m) !! k'
  = if c && bool_decide (k = k') then Some v else m !! k'.
Proof.
  destruct c; simpl; [|reflexivity].
  destruct (decide (k = k')) as [->|Hne].
  - rewrite lookup_insert_eq, bool_decide_eq_true_2; reflexivity.
  - rewrite lookup_insert_ne by exact Hne.
    rewrite bool_decide_eq_false_2; [reflexivity | exact Hne].
Qed.

Ltac decide_keys :=
  repeat (rewrite bool_decide_eq_true_2 by reflexivity
          || rewrite bool_decide_eq_false_2 by discriminate);
  rewrite ?andb_true_r, ?andb_false_r, ?lookup_empty.

Lemma email_message (fd : FormData) :
  newErrors fd !! "email"%string
  = if truthy (email fd)
    then if test email_pattern (email fd) then None
         else Some (lit "Please enter a valid email address")
    else Some (lit "Email is required").
Proof.
  unfold newErrors. cbv zeta. rewrite !guarded_lookup. decide_keys.
  destruct (truthy (email fd)); simpl; [|reflexivity].
  destruct (test email_pattern (email fd)); reflexivity.
Qed.

Lemma zip_message (fd : FormData) :
  newErrors fd !! "zip"%string
  = if truthy (zip fd)
    then if test zip_pattern (zip fd) then None
         else Some (lit "Please enter a valid ZIP code")
    else Some (lit "ZIP code is required").
Proof.
  unfold newErrors. cbv zeta. rewrite !guarded_lookup. decide_keys.
  destruct (truthy (zip fd)); simpl; [|reflexivity].
  destruct (test zip_pattern (zip fd)); reflexivity.
Qed.

Lemma card_message (fd : FormData) :
  newErrors fd !! "cardNumber"%string
  = if truthy (cardNumber fd) then None else Some (lit "Card number is required").
Proof.
  unfold newErrors. cbv zeta. rewrite !guarded_lookup. decide_keys.
  destruct (truthy (cardNumber fd)); reflexivity.
Qed.

Lemma flagged_fields (fd : FormData) (k : string) :
  is_Some (newErrors fd !! k) ->
  In k ["email"; "name"; "street"; "city"; "state"; "zip"; "cardNumber";
        "cardholderName"; "expiryDate"; "securityCode"]%string.
Proof.
  intros [v Hv]. unfold newErrors in Hv. cbv zeta in Hv.
  repeat (rewrite guarded_lookup in Hv;
          match type of Hv with
          | (if ?c && bool_decide (?a = k) then _ else _) = _ =>
              destruct (bool_decide (a = k)) eqn:E;
              [apply bool_decide_eq_true in E; subst k; simpl; tauto
              |rewrite andb_false_r in Hv; clear E]
          end).
  rewrite lookup_empty in Hv. discriminate Hv.
Qed.

End MessageFacts.

(** X15. After validation each field carries at most one message, and
    [required] wins over [invalid]: the email's message is [Email is
    required] if it is empty, [Please enter a valid email address] if it is
    not empty and fails the pattern, and none otherwise; likewise for the
    ZIP code.  The card number is only ever told that it is required.  No
    field beyond the ten required ones is ever flagged; the phone never
    is. *)
Theorem validation_messages (fd : Checkout.FormData) :
  Checkout.newErrors fd !! "email"%string
  = (if JS.truthy (Checkout.email fd)
     then if JS.test JS.email_pattern (Checkout.email fd) then None
          else Some (JS.lit "Please enter a valid email address")
     else Some (JS.lit "Email is required"))
  /\ Checkout.newErrors fd !! "zip"%string
     = (if JS.truthy (Checkout.zip fd)
        then if JS.test JS.zip_pattern (Checkout.zip fd) then None
             else Some (JS.lit "Please enter a valid ZIP code")
        else Some (JS.lit "ZIP code is required"))
  /\ Checkout.newErrors fd !! "cardNumber"%string
     = (if JS.truthy (Checkout.cardNumber fd) then None
        else Some (JS.lit "Card number is required"))
  /\ Checkout.newErrors fd !! "phone"%string = None
  /\ (forall k, is_Some (Checkout.newErrors fd !! k) ->
        In k ["email"; "name"; "street"; "city"; "state"; "zip"; "cardNumber";
              "cardholderName"; "expiryDate"; "securityCode"]%string).
Proof.
  split; [apply MessageFacts.email_message|].
  split; [apply MessageFacts.zip_message|].
  split; [apply MessageFacts.card_message|].
  split; [|apply MessageFacts.flagged_fields].
  destruct (Checkout.newErrors fd !! "phone"%string) eqn:E; [|reflexivity].
  exfalso. assert (H : is_Some (Checkout.newErrors fd !! "phone"%string)) by eauto.
  apply MessageFacts.flagged_fields in H. simpl in H.
  repeat (destruct H as [H|H]; [discriminate H|]). exact H.
Qed.

Lemma validation_messages_witness :
  is_Some (Checkout.newErrors Samples.shortZip !! "zip"%string)
  /\ In "zip"%string
       ["email"; "name"; "street"; "city"; "state"; "zip"; "cardNumber";
        "cardholderName"; "expiryDate"; "securityCode"]%string.
Proof.
  assert (H : is_Some (Checkout.newErrors Samples.shortZip !! "zip"%string))
    by (vm_compute; eauto).
  split; [exact H|].
  exact (proj2 (proj2 (proj2 (proj2 (validation_messages Samples.shortZip))))
           "zip"%string H).
Defined.

(** X16. Validation looks at the card number, the cardholder name, the
    expiry date and the security code only to see whether they are empty,
    and at the phone number and the billing flag not at all: two forms with
    the same email, name, street, city, state and ZIP code, and with the
    same card fields left empty, get the same verdict. *)
Theorem validation_ignores_card_contents (fd1 fd2 : Checkout.FormData) :
  Checkout.email fd1 = Checkout.email fd2 ->
  Checkout.name fd1 = Checkout.name fd2 ->
  Checkout.street fd1 = Checkout.street fd2 ->
  Checkout.city fd1 = Checkout.city fd2 ->
  Checkout.state fd1 = Checkout.state fd2 ->
  Checkout.zip fd1 = Checkout.zip fd2 ->
  (Checkout.cardNumber fd1 = [] <-> Checkout.cardNumber fd2 = []) ->
  (Checkout.cardholderName fd1 = [] <-> Checkout.cardholderName fd2 = []) ->
  (Checkout.expiryDate fd1 = [] <-> Checkout.expiryDate fd2 = []) ->
  (Checkout.securityCode fd1 = [] <-> Checkout.securityCode fd2 = []) ->
  Checkout.validateForm fd1 = Checkout.validateForm fd2.
Proof.
  intros He Hn Hs Hc Hst Hz Hcn Hch Hex Hsc.
  assert (Ht : forall a b : JS.jsstring, (a = [] <-> b = []) -> JS.truthy a = JS.truthy b).
  { intros a b H. destruct a, b; simpl; try reflexivity;
      [destruct H as [H _]; discriminate (H eq_refl)
      |destruct H as [_ H]; discriminate (H eq_refl)]. }
  rewrite !CheckoutFacts.validateForm_unfold.
  rewrite He, Hn, Hs, Hc, Hst, Hz.
  rewrite (Ht _ _ Hcn), (Ht _ _ Hch), (Ht _ _ Hex), (Ht _ _ Hsc). reflexivity.
Qed.

Lemma validation_ignores_card_contents_witness :
  Checkout.cardNumber Samples.filledForm <> Checkout.cardNumber Samples.otherCard
  /\ Checkout.validateForm Samples.filledForm = Checkout.validateForm Samples.otherCard.
Proof.
  split; [vm_compute; discriminate|].
  apply (validation_ignores_card_contents Samples.filledForm Samples.otherCard);
    try reflexivity; split; intros H; vm_compute in H; discriminate H.
Defined.

(** ** Where a submission ends *)

Module SubmitFacts.

(** Closes a goal from [H : In e effects] when [e] is none of the listed
    effects. *)
Ltac no_such_effect H :=
  repeat (destruct H as [H|H];
          [first [discriminate H
                 |injection H as H; vm_compute in H; discriminate H]|]);
  destruct H.

End SubmitFacts.

(** X17. The checkout handler moves on to the confirmation page exactly
    when the cart is not empty, the form is valid and the order request
    succeeded, and then to the page of the order that came back; it shows
    its processing-error alert exactly when such a request failed; and
    whenever it has raised the submitting flag, the last thing it does is
    lower it. *)
Theorem submission_outcome
    (Remote : Type)
    (fetch : Remote -> ordersApi.Request -> Settled Order.t * Remote)
    (cart : option Cart.t) (fd : Checkout.FormData) (remote : Remote) :
  let effects := fst (Checkout.handleSubmit fetch cart fd remote) in
  let request := ordersApi.createOrder (Checkout.customerInfo fd) (Checkout.paymentInfo fd) in
  (forall path,
      In (Checkout.routerPush path) effects <->
      Checkout.cartIsEmpty cart = false /\ Checkout.validateForm fd = true
      /\ exists order, fst (fetch remote request) = Resolved order
           /\ path = JS.lit "/order-confirmation/" ++ Order.id order)
  /\ (In (Checkout.alert
            (JS.lit "There was an error processing your order. Please try again."))
         effects <->
      Checkout.cartIsEmpty cart = false /\ Checkout.validateForm fd = true
      /\ exists reason, fst (fetch remote request) = Rejected reason)
  /\ (In (Checkout.setIsSubmitting true) effects ->
      last effects = Some (Checkout.setIsSubmitting false)).
Proof.
  cbv zeta. unfold Checkout.handleSubmit.
  destruct (Checkout.cartIsEmpty cart) eqn:Hc; [|destruct (Checkout.validateForm fd) eqn:Hv].
  - simpl. split; [|split].
    + intros path. split; [intros H; SubmitFacts.no_such_effect H|].
      intros [H _]. discriminate H.
    + split; [intros H; SubmitFacts.no_such_effect H|].
      intros [H _]. discriminate H.
    + intros H. SubmitFacts.no_such_effect H.
  - simpl. destruct (fetch remote _) as [[order|reason] remote'] eqn:Hf; simpl.
    + split; [|split].
      * intros path. split.
        -- intros H. do 4 (destruct H as [H|H]; [discriminate H|]).
           destruct H as [H|H]; [|SubmitFacts.no_such_effect H].
           injection H as <-. eauto.
        -- intros (_ & _ & order' & [= <-] & ->). do 4 right. left. reflexivity.
      * split; [intros H; SubmitFacts.no_such_effect H|].
        intros (_ & _ & reason & H). discriminate H.
      * intros _. reflexivity.
    + split; [|split].
      * intros path. split; [intros H; SubmitFacts.no_such_effect H|].
        intros (_ & _ & order & H & _). discriminate H.
      * split; [eauto|]. intros _. do 5 right. left. reflexivity.
      * intros _. reflexivity.
  - simpl. split; [|split].
    + intros path. split; [intros H; SubmitFacts.no_such_effect H|].
      intros (_ & H & _). discriminate H.
    + split; [intros H; SubmitFacts.no_such_effect H|].
      intros (_ & H & _). discriminate H.
    + intros H. SubmitFacts.no_such_effect H.
Qed.

Lemma submission_outcome_witness :
  Checkout.cartIsEmpty (Some Samples.twoBags) = false
  /\ Checkout.validateForm Samples.filledForm = true
  /\ In (Checkout.routerPush (JS.lit "/order-confirmation/ord-1"))
       (fst (Checkout.handleSubmit Samples.accepting (Some Samples.twoBags)
               Samples.filledForm tt)).
Proof.
  split; [reflexivity|]. split; [reflexivity|].
  apply (proj1 (submission_outcome unit Samples.accepting (Some Samples.twoBags)
                  Samples.filledForm tt)).
  split; [reflexivity|]. split; [reflexivity|].
  exists Samples.confirmation. split; reflexivity.
Defined.

(** X18. Whenever the checkout page renders its form, the cart it was
    rendered for passes the handler's empty-cart test: submitting on that
    cart never raises the empty-cart alert, the form is always validated,
    and the request goes out exactly when the form is valid.  The totals
    shown beside the form are the cart page's. *)
Theorem rendered_form_is_submittable
    (Remote : Type)
    (fetch : Remote -> ordersApi.Request -> Settled Order.t * Remote)
    (state : CartContext.CartContextState) (summary : Pricing.Summary)
    (fd : Checkout.FormData) (remote : Remote) :
  CartReads.CheckoutPage state = CartReads.CheckoutForm summary ->
  let effects := fst (Checkout.handleSubmit fetch (CartContext.cart state) fd remote) in
  (exists cart, CartContext.cart state = Some cart
     /\ summary = Pricing.OrderSummary (Cart.subtotal cart))
  /\ ~ In (Checkout.alert (JS.lit "Your cart is empty")) effects
  /\ In (Checkout.setErrors (Checkout.newErrors fd)) effects
  /\ Checkout.posted effects
     = if Checkout.validateForm fd
       then [ordersApi.createOrder (Checkout.customerInfo fd) (Checkout.paymentInfo fd)]
       else [].
Proof.
  intros Hview. cbv zeta.
  assert (Hcart : exists cart, CartContext.cart state = Some cart
                    /\ summary = Pricing.OrderSummary (Cart.subtotal cart)
                    /\ Checkout.cartIsEmpty (CartContext.cart state) = false).
  { unfold CartReads.CheckoutPage in Hview.
    destruct (CartContext.loading state); [discriminate Hview|].
    destruct (CartContext.cart state) as [cart|]; [|discriminate Hview].
    simpl. destruct (Nat.eqb (length (Cart.items cart)) 0) eqn:E;
      [discriminate Hview|].
    injection Hview as <-. exists cart. auto. }
  destruct Hcart as (cart & Hc & Hs & Hne).
  split; [eauto|].
  rewrite CheckoutFacts.handleSubmit_posted, Hne.
  unfold Checkout.handleSubmit. rewrite Hne.
  destruct (Checkout.validateForm fd); simpl.
  - destruct (fetch remote _) as [[order|reason] remote']; simpl.
    + split; [|split; [tauto | reflexivity]].
      intros H. SubmitFacts.no_such_effect H.
    + split; [|split; [tauto | reflexivity]].
      intros H. SubmitFacts.no_such_effect H.
  - split; [|split; [tauto | reflexivity]].
    intros H. SubmitFacts.no_such_effect H.
Qed.

Lemma rendered_form_is_submittable_witness :
  CartReads.CheckoutPage (CartContext.mkState (Some Samples.twoBags) false None)
  = CartReads.CheckoutForm (Pricing.OrderSummary 37.98)
  /\ Checkout.posted
       (fst (Checkout.handleSubmit Samples.accepting (Some Samples.twoBags)
               Samples.filledForm tt))
     = [ordersApi.createOrder (Checkout.customerInfo Samples.filledForm)
          (Checkout.paymentInfo Samples.filledForm)].
Proof.
  split; [reflexivity|].
  pose proof (rendered_form_is_submittable unit Samples.accepting
                (CartContext.mkState (Some Samples.twoBags) false None)
                (Pricing.OrderSummary 37.98) Samples.filledForm tt eq_refl)
    as (_ & _ & _ & H).
  exact H.
Defined.

(** ** The card number on its way out *)

(** X19. Of a card number with more than four characters the request
    carries exactly the last four and so never the whole number; a card
    number of four characters or fewer is carried whole. *)
Theorem last_four_of_card_number (fd : Checkout.FormData) :
  (4 < length (Checkout.cardNumber fd) ->
     length (PaymentInfo.last_four (Checkout.paymentInfo fd)) = 4
     /\ PaymentInfo.last_four (Checkout.paymentInfo fd) <> Checkout.cardNumber fd
     /\ exists front, front <> []
          /\ Checkout.cardNumber fd
             = front ++ PaymentInfo.last_four (Checkout.paymentInfo fd))
  /\ (length (Checkout.cardNumber fd) <= 4 ->
      PaymentInfo.last_four (Checkout.paymentInfo fd) = Checkout.cardNumber fd).
Proof.
  unfold Checkout.paymentInfo, JS.slice_last. simpl.
  set (s := Checkout.cardNumber fd). split.
  - intros Hlen.
    assert (Hl : length (skipn (length s - 4) s) = 4) by (rewrite length_skipn; lia).
    split; [exact Hl|]. split.
    + intros E. rewrite E in Hl. lia.
    + exists (firstn (length s - 4) s). split.
      * intros E. apply (f_equal (@length N)) in E.
        rewrite length_firstn in E. simpl in E. lia.
      * symmetry. apply firstn_skipn.
  - intros Hlen. replace (length s - 4) with 0 by lia. reflexivity.
Qed.

Lemma last_four_of_card_number_witness :
  4 < length (Checkout.cardNumber Samples.filledForm)
  /\ length (PaymentInfo.last_four (Checkout.paymentInfo Samples.filledForm)) = 4
  /\ PaymentInfo.last_four (Checkout.paymentInfo Samples.filledForm)
     <> Checkout.cardNumber Samples.filledForm.
Proof.
  assert (H : 4 < length (Checkout.cardNumber Samples.filledForm))
    by (vm_compute; lia).
  split; [exact H|].
  destruct (proj1 (last_four_of_card_number Samples.filledForm) H) as (H1 & H2 & _).
  split; [exact H1 | exact H2].
Defined.

(** ** A whole session *)

Module SessionFacts.

Section Runs.
Context {Remote : Type}.
Variable fetch : Remote -> cartApi.Request -> Settled Cart.t * Remote.

Lemma roundTrip_keeps_some (request : cartApi.Request) (fallback : string)
    (w : @CartContext.World Remote) :
  is_Some (CartContext.cart (CartContext.state w)) ->
  is_Some (CartContext.cart
             (CartContext.state (snd (CartContext.roundTrip fetch request fallback w)))).
Proof.
  intros H.
  destruct (CartContextFacts.roundTrip_spec fetch request fallback w) as (_ & _ & Hstate).
  rewrite Hstate. destruct (fst (fetch (CartContext.remote w) request)); simpl; eauto.
Qed.

Lemma roundTrip_extends (request : cartApi.Request) (fallback : string)
    (w : @CartContext.World Remote) :
  CartContext.sent (snd (CartContext.roundTrip fetch request fallback w))
  = CartContext.sent w ++ [request].
Proof. apply CartContextFacts.roundTrip_spec. Qed.

Lemma perform_step (op : CartSession.Operation) (w : @CartContext.World Remote) :
  (is_Some (CartContext.cart (CartContext.state w)) ->
   is_Some (CartContext.cart (CartContext.state (CartSession.perform fetch op w))))
  /\ exists new, length new <= 1
       /\ CartContext.sent (CartSession.perform fetch op w) = CartContext.sent w ++ new.
Proof.
  destruct op as [|m]; simpl.
  - change (CartContext.refreshCart fetch)
      with (CartContext.roundTrip fetch cartApi.getCart "Failed to load cart").
    split; [apply roundTrip_keeps_some|].
    exists [cartApi.getCart]. split; [simpl; lia | apply roundTrip_extends].
  - rewrite CartContextFacts.mutate_unfold.
    destruct (CartContext.remote_call m) as [[request fallback]|].
    + split; [apply roundTrip_keeps_some|].
      exists [request]. split; [simpl; lia | apply roundTrip_extends].
    + split; [auto|]. exists []. split; [simpl; lia | symmetry; apply app_nil_r].
Qed.

End Runs.
End SessionFacts.

(** X20. Once the provider has cached a cart, nothing a session can do
    takes it away again: after any sequence of refreshes, adds, updates and
    removes, failed or not, some cart is still cached.  Along the way the
    requests already sent are never altered, and each operation adds at
    most one. *)
Theorem cached_cart_never_dropped
    (Remote : Type)
    (fetch : Remote -> cartApi.Request -> Settled Cart.t * Remote)
    (ops : list CartSession.Operation) (w : @CartContext.World Remote) :
  let w' := CartSession.performAll fetch ops w in
  (is_Some (CartContext.cart (CartContext.state w)) ->
   is_Some (CartContext.cart (CartContext.state w')))
  /\ exists new, length new <= length ops
       /\ CartContext.sent w' = CartContext.sent w ++ new.
Proof.
  cbv zeta. unfold CartSession.performAll. revert w.
  induction ops as [|op ops IH]; intros w; simpl.
  - split; [auto|]. exists []. split; [simpl; lia | symmetry; apply app_nil_r].
  - destruct (SessionFacts.perform_step fetch op w) as (Hkeep & new1 & Hlen1 & Hsent1).
    destruct (IH (CartSession.perform fetch op w)) as (Hkeep' & new2 & Hlen2 & Hsent2).
    split; [auto|]. exists (new1 ++ new2). split.
    + rewrite length_app. lia.
    + rewrite Hsent2, Hsent1, app_assoc. reflexivity.
Qed.

Lemma cached_cart_never_dropped_witness :
  is_Some (CartContext.cart
             (CartContext.state
                (CartContext.mkWorld
                   (CartContext.mkState (Some Samples.twoBags) false None) tt [])))
  /\ is_Some (CartContext.cart
                (CartContext.state
                   (CartSession.performAll Samples.refusing
                      [CartSession.Refresh;
                       CartSession.Mutate (CartContext.Remove (JS.lit "1"))]
                      (CartContext.mkWorld
                         (CartContext.mkState (Some Samples.twoBags) false None) tt [])))).
Proof.
  assert (H : is_Some (CartContext.cart
             (CartContext.state
                (CartContext.mkWorld
                   (CartContext.mkState (Some Samples.twoBags) false None) tt []))))
    by (simpl; eauto).
  split; [exact H|].
  exact (proj1 (cached_cart_never_dropped unit Samples.refusing
                  [CartSession.Refresh;
                   CartSession.Mutate (CartContext.Remove (JS.lit "1"))]
                  (CartContext.mkWorld
                     (CartContext.mkState (Some Samples.twoBags) false None) tt []))
               H).
Defined.
